(** * Send campaign engine of the WhatsApp automation handler

    A shallow embedding of [whatsapp-handler.ts]: the template renderer
    [formatMessage], the identifier normaliser [formatPhoneNumber], the single
    send [sendMessage] and the campaign loop [sendMessages], followed by the
    properties of the engine. *)

From Stdlib Require Import String Ascii List ZArith Lia Bool.
From Stdlib Require Import DecimalString Sorted Permutation.
Import ListNotations.

Open Scope string_scope.
Open Scope list_scope.
Open Scope Z_scope.

Infix "+++" := String.append (right associativity, at level 60).

(** ** JavaScript string built-ins used by the handler

    A JS string is modelled as a Rocq [string]: a finite sequence of code
    units.  Only equality of code units and the class of the ten decimal
    digits are ever inspected by the handler. *)

Module JsString.

(** [s.substring(n)] *)
Fixpoint drop (n : nat) (s : string) : string :=
  match n, s with
  | O, _ => s
  | S _, EmptyString => EmptyString
  | S n', String _ s' => drop n' s'
  end.

(** The code units of [s], each as a one-unit string: [s.split('')]. *)
Fixpoint chars (s : string) : list string :=
  match s with
  | EmptyString => []
  | String c s' => String c EmptyString :: chars s'
  end.

(** The scan of [String.prototype.split] for a non-empty separator: walk
    the string from the left; where the separator matches, close the current
    piece and jump over the separator, otherwise the code unit joins the
    current piece.  [fuel] bounds the number of steps; [length s] is
    enough, as every step consumes at least one code unit. *)
Fixpoint split_fuel (fuel : nat) (sep s : string) : list string :=
  match fuel with
  | O => [s]
  | S fuel' =>
      match s with
      | EmptyString => [EmptyString]
      | String c s' =>
          if prefix sep s
          then EmptyString :: split_fuel fuel' sep (drop (String.length sep) s)
          else match split_fuel fuel' sep s' with
               | piece :: pieces => String c piece :: pieces
               | [] => [String c EmptyString]
               end
      end
  end.

(** [s.split(sep)] without a limit. *)
Definition split (sep s : string) : list string :=
  match sep with
  | EmptyString => chars s
  | String _ _ => split_fuel (String.length s) sep s
  end.

(** [parts.join(sep)] *)
Definition join (sep : string) (parts : list string) : string :=
  String.concat sep parts.

(** The class [\d]: the code units '0' .. '9'. *)
Definition is_digit (c : ascii) : bool :=
  let n := nat_of_ascii c in (48 <=? n)%nat && (n <=? 57)%nat.

(** The class [\D] is the complement of [\d]. *)
Definition is_non_digit (c : ascii) : bool := negb (is_digit c).

(** [s.replace(/C/g, repl)] for a one-code-unit class [C]: every position
    is tried from the left; a unit of the class is replaced by [repl], any
    other unit is copied. *)
Fixpoint replace_class_global (cls : ascii -> bool) (repl s : string) : string :=
  match s with
  | EmptyString => EmptyString
  | String c s' =>
      if cls c then repl +++ replace_class_global cls repl s'
      else String c (replace_class_global cls repl s')
  end.

(** [Number.prototype.toString()] on an integral number (of absolute value
    below 10^21, where JS still prints every digit): its decimal numeral,
    with a leading minus sign below zero. *)
Definition number_toString (z : Z) : string :=
  NilZero.string_of_int (Z.to_int z).

End JsString.

Import JsString.

(** ** Data model ([src/types.ts])

    A cell is [string | number | Date | undefined].  Numbers are the integral
    values a sheet holds; a date is represented by the text that its
    [toLocaleDateString()] gives in the host locale. *)

Inductive Cell : Type :=
| CStr (s : string)
| CNum (z : Z)
| CDate (localeDateString : string)
| CUndefined.

(** [ExcelRow]: the own properties of the row object, in the order in which
    [Object.keys] enumerates them. *)
Definition ExcelRow : Type := list (string * Cell).

Definition keys (row : ExcelRow) : list string := map fst row.

(** [row[column]]; [None] is the [undefined] of a missing property. *)
Fixpoint row_get (row : ExcelRow) (column : string) : option Cell :=
  match row with
  | [] => None
  | (k, c) :: row' => if String.eqb k column then Some c else row_get row' column
  end.

(** ** Template renderer and identifier normaliser *)

Definition placeholder (column : string) : string := "{" +++ column +++ "}".

(** The text substituted for a column: empty for [undefined], the locale date
    for a [Date], [toString()] otherwise. *)
Definition cell_value (cell : option Cell) : string :=
  match cell with
  | None | Some CUndefined => ""
  | Some (CDate d) => d
  | Some (CStr s) => s
  | Some (CNum z) => number_toString z
  end.

Definition formatMessage (template : string) (rowData : ExcelRow) : string :=
  fold_left
    (fun message column =>
       let value := cell_value (row_get rowData column) in
       join value (split (placeholder column) message))
    (keys rowData) template.

(** A destination is [string | number]. *)
Inductive Phone : Type :=
| PStr (s : string)
| PNum (z : Z).

Definition phone_toString (phone : Phone) : string :=
  match phone with
  | PStr s => s
  | PNum z => number_toString z
  end.

Definition formatPhoneNumber (phone : Phone) : string :=
  let cleaned := replace_class_global is_non_digit "" (phone_toString phone) in
  cleaned +++ "@c.us".

(** ** Results and notifications ([src/types.ts], [SendMessagesResults]) *)

(** ['success' | 'failed' | 'sending'] *)
Inductive Status : Type := Success | Failed | Sending.

Record MessageResult : Type := {
  mr_phone : string;
  mr_status : Status;
  mr_error : option string
}.

Record ProgressData : Type := {
  current : Z;
  pd_total : Z;
  pd_phone : string;
  pd_status : Status;
  pd_error : option string
}.

Record Detail : Type := {
  index : Z;
  d_phone : string;
  d_status : Status;
  d_error : option string
}.

Record SendMessagesResults : Type := {
  total : Z;
  success : Z;
  failed : Z;
  details : list Detail
}.

(** ** Effects

    A value travelling along [throw]/[catch]: an [Error] object with its
    [message], or anything else. *)
Inductive Thrown : Type :=
| ErrorObject (message : string)
| OtherValue.

(** How the promise of [client.sendMessage] settles. *)
Inductive Settled : Type :=
| Resolved
| Rejected (reason : Thrown).

(** What the handler does to the outside, in the order it happens. *)
Inductive Event : Type :=
| EvProgress (p : ProgressData)                      (* progressCallback(p) *)
| EvRender (message : string)                        (* formatMessage(template, row) *)
| EvSend (chatId message : string) (o : Settled)     (* await client.sendMessage(...) *)
| EvTimeout (ms : Z).                                (* await setTimeout(resolve, ms) *)

Inductive Completion (A : Type) : Type :=
| Normal (a : A)
| Throw (e : Thrown).
Arguments Normal {A} a.
Arguments Throw {A} e.

Section Engine.

(** The transport session behind [this.client]: its state, and how a send
    on it settles.  Every send is assumed to settle. *)
Variable ClientState : Type.
Variable transport : ClientState -> string -> string -> ClientState * Settled.

(** [client] is [this.client] ([None] for [null]); [log] is the history
    of effects, each stamped with [iteration], the index of the loop
    iteration of [sendMessages] in which it took place. *)
Record World : Type := {
  client : option ClientState;
  log : list (Z * Event);
  iteration : Z
}.

Definition M (A : Type) : Type := World -> Completion A * World.

Definition ret {A} (a : A) : M A := fun w => (Normal a, w).

Definition bind {A B} (m : M A) (k : A -> M B) : M B :=
  fun w =>
    match m w with
    | (Normal a, w') => k a w'
    | (Throw e, w') => (Throw e, w')
    end.

Definition throw {A} (e : Thrown) : M A := fun w => (Throw e, w).

Definition try_catch {A} (body : M A) (handler : Thrown -> M A) : M A :=
  fun w =>
    match body w with
    | (Normal a, w') => (Normal a, w')
    | (Throw e, w') => handler e w'
    end.

Notation "x <- m ;; k" := (bind m (fun x => k))
  (at level 100, m at next level, right associativity).
Notation "m ;; k" := (bind m (fun _ => k))
  (at level 100, right associativity).

Definition emit (e : Event) : M unit :=
  fun w =>
    (Normal tt,
     {| client := client w; log := log w ++ [(iteration w, e)]; iteration := iteration w |}).

Definition enter_iteration (i : Z) : M unit :=
  fun w => (Normal tt, {| client := client w; log := log w; iteration := i |}).

Definition this_client : M (option ClientState) := fun w => (Normal (client w), w).

(** [await this.client.sendMessage(chatId, message)]: a rejection is
    rethrown by [await]. *)
Definition client_sendMessage (chatId message : string) : M unit :=
  fun w =>
    match client w with
    | None => (Throw (ErrorObject "Cannot read properties of null"), w)
    | Some c =>
        let (c', o) := transport c chatId message in
        let w' := {| client := Some c';
                     log := log w ++ [(iteration w, EvSend chatId message o)];
                     iteration := iteration w |} in
        match o with
        | Resolved => (Normal tt, w')
        | Rejected e => (Throw e, w')
        end
    end.

Definition sendMessage (phone : Phone) (message : string) : M MessageResult :=
  try_catch
    (c <- this_client ;;
     (match c with
      | None => throw (ErrorObject "WhatsApp client not initialized")
      | Some _ => ret tt
      end) ;;
     let chatId := formatPhoneNumber phone in
     client_sendMessage chatId message ;;
     ret {| mr_phone := phone_toString phone; mr_status := Success; mr_error := None |})
    (fun error =>
       ret {| mr_phone := phone_toString phone;
              mr_status := Failed;
              mr_error := Some (match error with
                                | ErrorObject m => m
                                | OtherValue => "Unknown error"
                                end) |}).

(** JS truthiness of a cell: [undefined], the empty string and the number 0
    are falsy; every object, so every [Date], is truthy. *)
Definition truthy (v : option Cell) : bool :=
  match v with
  | None | Some CUndefined => false
  | Some (CStr s) => negb (String.eqb s "")
  | Some (CNum z) => negb (z =? 0)
  | Some (CDate _) => true
  end.

Definition instanceof_Date (v : option Cell) : bool :=
  match v with
  | Some (CDate _) => true
  | _ => false
  end.

(** [typeof phone === 'string' || typeof phone === 'number' ? phone : String(phone)];
    the last alternative is never reached behind the guard of the loop. *)
Definition phone_value (phone : option Cell) : Phone :=
  match phone with
  | Some (CStr s) => PStr s
  | Some (CNum z) => PNum z
  | Some (CDate d) => PStr d
  | None | Some CUndefined => PStr "undefined"
  end.

(** [if (progressCallback) progressCallback(p)] *)
Definition notify (progressCallback : bool) (p : ProgressData) : M unit :=
  if progressCallback then emit (EvProgress p) else ret tt.

Definition record_success (results : SendMessagesResults) (d : Detail) : SendMessagesResults :=
  {| total := total results; success := success results + 1; failed := failed results;
     details := details results ++ [d] |}.

Definition record_failed (results : SendMessagesResults) (d : Detail) : SendMessagesResults :=
  {| total := total results; success := success results; failed := failed results + 1;
     details := details results ++ [d] |}.

Section Campaign.

Variable data_length : Z.
Variables phoneColumn template : string.
Variable delay : Z.
Variable progressCallback : bool.

(** One pass through the body of the [for] loop, at index [i] on [row].
    Behind the guard [phone] is a string or a number, so [phone.toString()]
    is the string form of [phoneValue]. *)
Definition loop_body (i : Z) (row : ExcelRow) (results : SendMessagesResults)
  : M SendMessagesResults :=
  let phone := row_get row phoneColumn in
  if negb (truthy phone) || instanceof_Date phone then
    let results :=
      record_failed results
        {| index := i; d_phone := "N/A"; d_status := Failed;
           d_error := Some "No phone number" |} in
    notify progressCallback
      {| current := i + 1; pd_total := data_length; pd_phone := "N/A";
         pd_status := Failed; pd_error := Some "No phone number" |} ;;
    ret results                                            (* continue *)
  else
    let message := formatMessage template row in
    emit (EvRender message) ;;
    let phoneValue := phone_value phone in
    notify progressCallback
      {| current := i + 1; pd_total := data_length;
         pd_phone := phone_toString phoneValue;
         pd_status := Sending; pd_error := None |} ;;
    result <- sendMessage phoneValue message ;;
    results <-
      (match mr_status result with
       | Success =>
           let results :=
             record_success results
               {| index := i; d_phone := phone_toString phoneValue;
                  d_status := Success; d_error := None |} in
           notify progressCallback
             {| current := i + 1; pd_total := data_length;
                pd_phone := phone_toString phoneValue;
                pd_status := Success; pd_error := None |} ;;
           ret results
       | _ =>
           let results :=
             record_failed results
               {| index := i; d_phone := phone_toString phoneValue;
                  d_status := Failed; d_error := mr_error result |} in
           notify progressCallback
             {| current := i + 1; pd_total := data_length;
                pd_phone := phone_toString phoneValue;
                pd_status := Failed; pd_error := mr_error result |} ;;
           ret results
       end) ;;
    (if i <? data_length - 1 then emit (EvTimeout (delay * 1000)) else ret tt) ;;
    ret results.

(** [for (let i = ...; i < data.length; i++)] over the rows from index [i] on. *)
Fixpoint loop (rest : list ExcelRow) (i : Z) (results : SendMessagesResults)
  : M SendMessagesResults :=
  match rest with
  | [] => ret results
  | row :: rest' =>
      enter_iteration i ;;
      results <- loop_body i row results ;;
      loop rest' (i + 1) results
  end.

End Campaign.

Definition sendMessages (data : list ExcelRow) (phoneColumn template : string)
    (delay : Z) (progressCallback : bool) : M SendMessagesResults :=
  let results :=
    {| total := Z.of_nat (List.length data); success := 0; failed := 0; details := [] |} in
  loop (Z.of_nat (List.length data)) phoneColumn template delay progressCallback
    data 0 results.

(** The handler before a campaign: a session (or none), nothing done yet. *)
Definition start (c : option ClientState) : World :=
  {| client := c; log := []; iteration := 0 |}.

End Engine.

Arguments client {ClientState} w.
Arguments log {ClientState} w.
Arguments iteration {ClientState} w.
Arguments start {ClientState} c.
Arguments sendMessage {ClientState} transport phone message w.
Arguments sendMessages {ClientState} transport data phoneColumn template delay progressCallback w.

(** ** Reading a history *)

(** The effects of loop iteration [i], in order. *)
Definition events_at (i : Z) (l : list (Z * Event)) : list Event :=
  map snd (filter (fun e => fst e =? i) l).

Definition progress_of (e : Event) : list ProgressData :=
  match e with EvProgress p => [p] | _ => [] end.

Definition timeout_of (e : Event) : list Z :=
  match e with EvTimeout ms => [ms] | _ => [] end.

Definition is_send (e : Event) : bool :=
  match e with EvSend _ _ _ => true | _ => false end.

(** All progress notifications of a history, in order of emission. *)
Definition notifications (l : list (Z * Event)) : list ProgressData :=
  flat_map (fun e => progress_of (snd e)) l.

(** The notifications that report position [k] (the one-based [current]). *)
Definition notifications_for (k : Z) (l : list (Z * Event)) : list ProgressData :=
  filter (fun p => current p =? k) (notifications l).

(** The row is skipped by the guard of the loop. *)
Definition ineligible (phoneColumn : string) (row : ExcelRow) : bool :=
  let phone := row_get row phoneColumn in
  negb (truthy phone) || instanceof_Date phone.

(** The text under which the destination of an eligible row is reported. *)
Definition shown_phone (phoneColumn : string) (row : ExcelRow) : string :=
  phone_toString (phone_value (row_get row phoneColumn)).

(** The description recorded for a rejected send. *)
Definition describe (e : Thrown) : string :=
  match e with ErrorObject m => m | OtherValue => "Unknown error" end.

(** The error kept for a send, by the way its promise settled. *)
Definition verdict (o : Settled) : option string :=
  match o with Resolved => None | Rejected e => Some (describe e) end.

Definition status_of (err : option string) : Status :=
  match err with None => Success | Some _ => Failed end.

(** The detail and the notification of a row skipped by the guard. *)
Definition skipped_detail (i : Z) : Detail :=
  {| index := i; d_phone := "N/A"; d_status := Failed;
     d_error := Some "No phone number" |}.

Definition skipped_progress (n i : Z) : ProgressData :=
  {| current := i + 1; pd_total := n; pd_phone := "N/A";
     pd_status := Failed; pd_error := Some "No phone number" |}.

(** The notification before the send of row [i], and the detail and the
    notification after it, [err] being the error of the send, if any. *)
Definition sending_progress (n : Z) (phoneColumn : string) (i : Z) (row : ExcelRow)
  : ProgressData :=
  {| current := i + 1; pd_total := n; pd_phone := shown_phone phoneColumn row;
     pd_status := Sending; pd_error := None |}.

Definition sent_detail (phoneColumn : string) (i : Z) (row : ExcelRow)
    (err : option string) : Detail :=
  {| index := i; d_phone := shown_phone phoneColumn row;
     d_status := status_of err; d_error := err |}.

Definition sent_progress (n : Z) (phoneColumn : string) (i : Z) (row : ExcelRow)
    (err : option string) : ProgressData :=
  {| current := i + 1; pd_total := n; pd_phone := shown_phone phoneColumn row;
     pd_status := status_of err; pd_error := err |}.

Definition is_status (s : Status) (d : Detail) : bool :=
  match s, d_status d with
  | Success, Success | Failed, Failed | Sending, Sending => true
  | _, _ => false
  end.

(** ** Templates in token form

    A template read as literal text and placeholders; [flatten] gives back
    the string. *)
Inductive Token : Type :=
| Lit (text : string)
| Ph (name : string).

Definition token_text (t : Token) : string :=
  match t with
  | Lit s => s
  | Ph n => placeholder n
  end.

Definition flatten (toks : list Token) : string :=
  fold_right (fun t acc => token_text t +++ acc) "" toks.

(** [c] occurs in [s]. *)
Fixpoint occurs (c : ascii) (s : string) : bool :=
  match s with
  | EmptyString => false
  | String a s' => Ascii.eqb a c || occurs c s'
  end.

Definition open_brace : ascii := "{"%char.
Definition close_brace : ascii := "}"%char.

(** Literal text has no opening brace; a placeholder name has no brace. *)
Definition token_plain (t : Token) : Prop :=
  match t with
  | Lit s => occurs open_brace s = false
  | Ph n => occurs open_brace n = false /\ occurs close_brace n = false
  end.

(** No column name has a closing brace and no cell text an opening brace. *)
Definition row_plain (row : ExcelRow) : Prop :=
  Forall (fun kc => occurs close_brace (fst kc) = false
                    /\ occurs open_brace (cell_value (Some (snd kc))) = false) row.

(** What becomes of a token when every placeholder is substituted at once:
    the text of the cell for a column of the row, the placeholder itself
    otherwise. *)
Definition render_token (row : ExcelRow) (t : Token) : string :=
  match t with
  | Lit s => s
  | Ph n =>
      match row_get row n with
      | Some c => cell_value (Some c)
      | None => placeholder n
      end
  end.

(** [message.split(p).join(v)], the replacement step of [formatMessage]. *)
Definition replace_all (p v s : string) : string := join v (split p s).

(** One replacement step, seen on a token. *)
Definition subst_token (k v : string) (t : Token) : Token :=
  match t with
  | Lit s => Lit s
  | Ph n => if String.eqb n k then Lit v else Ph n
  end.

(** A token after the replacement steps of the columns [ks], in order, the
    text put for column [k] being [value k]. *)
Definition subst_tokens (value : string -> string) (ks : list string) (t : Token) : Token :=
  fold_left (fun t k => subst_token k (value k) t) ks t.

(** The decimal digits of a string, in order. *)
Definition digits_of (s : string) : string :=
  string_of_list_ascii (filter is_digit (list_ascii_of_string s)).

(** ** One iteration as a function

    The loop body seen from outside: what an iteration adds to the history
    and to the results, as a function of the session it starts on. *)

Definition progress_events (cb : bool) (p : ProgressData) : list Event :=
  if cb then [EvProgress p] else [].

Definition pause (n delay i : Z) : list Event :=
  if i <? n - 1 then [EvTimeout (delay * 1000)] else [].

Definition add_detail (results : SendMessagesResults) (d : Detail) : SendMessagesResults :=
  match d_status d with
  | Success => record_success results d
  | _ => record_failed results d
  end.

(** The history written by consecutive iterations, the first being [i]. *)
Fixpoint stamped (i : Z) (blocks : list (list Event * Detail)) : list (Z * Event) :=
  match blocks with
  | [] => []
  | (evs, _) :: blocks' => map (pair i) evs ++ stamped (i + 1) blocks'
  end.

Section Iterations.

Variable ClientState : Type.
Variable transport : ClientState -> string -> string -> ClientState * Settled.

Definition present (c : option ClientState) : bool :=
  match c with Some _ => true | None => false end.

Definition logged (w : World ClientState) (c : option ClientState) (evs : list Event)
  : World ClientState :=
  {| client := c; log := log w ++ map (pair (iteration w)) evs;
     iteration := iteration w |}.

(** A send attempt on the session [c]: the session afterwards, the effect
    on the transport, and the error of the attempt, if any. *)
Definition settle (c : option ClientState) (chatId message : string)
  : option ClientState * list Event * option string :=
  match c with
  | None => (None, [], Some "WhatsApp client not initialized")
  | Some st =>
      let (st', o) := transport st chatId message in
      (Some st', [EvSend chatId message o], verdict o)
  end.

Variable n : Z.
Variables phoneColumn template : string.
Variable delay : Z.
Variable cb : bool.

(** One iteration: the session it leaves, its effects in order, and the
    detail it appends. *)
Definition row_effect (i : Z) (row : ExcelRow) (c : option ClientState)
  : option ClientState * list Event * Detail :=
  if ineligible phoneColumn row then
    (c, progress_events cb (skipped_progress n i), skipped_detail i)
  else
    let message := formatMessage template row in
    let chatId := formatPhoneNumber (phone_value (row_get row phoneColumn)) in
    let '(c', sent, err) := settle c chatId message in
    (c',
     [EvRender message] ++ progress_events cb (sending_progress n phoneColumn i row)
       ++ sent ++ progress_events cb (sent_progress n phoneColumn i row err)
       ++ pause n delay i,
     sent_detail phoneColumn i row err).

(** The iterations over [rest] from index [i] on: effects and detail of each. *)
Fixpoint run_rows (rest : list ExcelRow) (i : Z) (c : option ClientState)
  : list (list Event * Detail) :=
  match rest with
  | [] => []
  | row :: rest' =>
      let '(c', evs, d) := row_effect i row c in
      (evs, d) :: run_rows rest' (i + 1) c'
  end.

(** The history of the iterations over [rest] from index [i] on. *)
Definition history (rest : list ExcelRow) (i : Z) (c : option ClientState)
  : list (Z * Event) :=
  stamped i (run_rows rest i c).

End Iterations.

Arguments present {ClientState} c.
Arguments logged {ClientState} w c evs.
Arguments settle {ClientState} transport c chatId message.
Arguments row_effect {ClientState} transport n phoneColumn template delay cb i row c.
Arguments run_rows {ClientState} transport n phoneColumn template delay cb rest i c.
Arguments history {ClientState} transport n phoneColumn template delay cb rest i c.

(** ** Property assignment on a JS object

    The own keys of an ordinary object are enumerated with the array indices
    first, in ascending order, and the other keys after them in the order of
    their creation.  Assigning to a key that is there keeps its place. *)

(** An array index: the canonical decimal numeral of a number below 2^32 - 1. *)
Definition array_index (k : string) : option N :=
  match NilEmpty.uint_of_string k with
  | Some d =>
      let n := N.of_uint d in
      if String.eqb (NilZero.string_of_uint (N.to_uint n)) k && (n <? 4294967295)%N
      then Some n
      else None
  | None => None
  end.

Definition has_key (o : ExcelRow) (k : string) : bool :=
  existsb (String.eqb k) (keys o).

Fixpoint replace_value (o : ExcelRow) (k : string) (v : Cell) : ExcelRow :=
  match o with
  | [] => []
  | (k', v') :: o' =>
      if String.eqb k' k then (k', v) :: o' else (k', v') :: replace_value o' k v
  end.

(** A new array index [n] goes before the first key that is a larger index
    or no index at all. *)
Fixpoint insert_index (n : N) (k : string) (v : Cell) (o : ExcelRow) : ExcelRow :=
  match o with
  | [] => [(k, v)]
  | (k', v') :: o' =>
      match array_index k' with
      | Some n' =>
          if (n' <? n)%N then (k', v') :: insert_index n k v o' else (k, v) :: o
      | None => (k, v) :: o
      end
  end.

(** [o[k] = v] *)
Definition obj_set (o : ExcelRow) (k : string) (v : Cell) : ExcelRow :=
  if has_key o k then replace_value o k v
  else match array_index k with
       | Some n => insert_index n k v o
       | None => o ++ [(k, v)]
       end.

(** ** Reading a workbook ([getExcelSheets], [readExcelFile])

    The [xlsx] library is outside the handler: a workbook is given by its
    [SheetNames] and by the rows that [sheet_to_json] makes of each of its
    sheets; a path is absent ([fs.existsSync] is false), or [XLSX.readFile]
    throws on it, or it holds a workbook. *)
Record Workbook : Type := {
  SheetNames : list string;
  sheet_to_json : string -> list ExcelRow
}.

Inductive FileEntry : Type :=
| Unreadable (e : Thrown)
| Readable (wb : Workbook).

Definition FileSystem : Type := string -> option FileEntry.

Definition getExcelSheets (fs : FileSystem) (filePath : string) : Completion (list string) :=
  match fs filePath with
  | None => Throw (ErrorObject ("File not found: " +++ filePath))
  | Some (Unreadable e) => Throw e
  | Some (Readable workbook) => Normal (SheetNames workbook)
  end.

(** [sheetName || workbook.SheetNames[0]]: [null] and the empty string give
    way to the first sheet name, which is [undefined] ([None]) in a workbook
    without sheets. *)
Definition selected_sheet (sheetName : option string) (names : list string) : option string :=
  match sheetName with
  | Some (String c s) => Some (String c s)
  | Some EmptyString | None => nth_error names 0
  end.

(** The cell written to the formatted row: a number above 999999999 as the
    string of its floor (the number itself, being integral), [undefined] for
    a key without value, and any other value as it is. *)
Definition formatted_cell (value : option Cell) : Cell :=
  match value with
  | Some (CNum z) => if z >? 999999999 then CStr (number_toString z) else CNum z
  | Some (CDate d) => CDate d
  | Some c => c
  | None => CUndefined
  end.

(** The callback of [data.map] in [readExcelFile]. *)
Definition format_row (row : ExcelRow) (index : Z) : ExcelRow :=
  fold_left
    (fun formattedRow key => obj_set formattedRow key (formatted_cell (row_get row key)))
    (keys row) [("__rowIndex", CNum index)].

(** [data.map(f)], [f] taking the element and its index. *)
Fixpoint map_indexed {A B : Type} (f : A -> Z -> B) (index : Z) (data : list A) : list B :=
  match data with
  | [] => []
  | x :: data' => f x index :: map_indexed f (index + 1) data'
  end.

Definition readExcelFile (fs : FileSystem) (filePath : string) (sheetName : option string)
  : Completion (list ExcelRow) :=
  match fs filePath with
  | None => Throw (ErrorObject ("File not found: " +++ filePath))
  | Some (Unreadable e) => Throw e
  | Some (Readable workbook) =>
      match selected_sheet sheetName (SheetNames workbook) with
      | None => Throw (ErrorObject "Sheet 'undefined' not found in workbook")
      | Some selectedSheet =>
          if negb (existsb (String.eqb selectedSheet) (SheetNames workbook))
          then Throw (ErrorObject ("Sheet '" +++ selectedSheet +++ "' not found in workbook"))
          else Normal (map_indexed format_row 0 (sheet_to_json workbook selectedSheet))
      end
  end.

(** ** Creating a group ([createGroupFromExcel]) and closing the session ([destroy]) *)

Record CreateGroupResult : Type := {
  cg_success : bool;
  cg_groupId : option string;
  cg_groupName : option string;
  cg_error : option string
}.

(** What [client.createGroup] resolves to, as the handler reads it: a value
    with an [id], of which [id._serialized] and [name] are strings or
    [undefined]; or a value on which reading [id._serialized] throws a
    TypeError with some message. *)
Inductive GroupValue : Type :=
| GroupObject (serialized name : option string)
| NoGroupId (typeError : string).

Inductive GroupSettled : Type :=
| GroupResolved (group : GroupValue)
| GroupRejected (reason : Thrown).

(** The loop over the rows that collects the participants.  A cell that
    passes the guard is a string or a number, which [phone_value] hands to
    [formatPhoneNumber] as it is. *)
Definition participants_of (data : list ExcelRow) (phoneColumn : string) : list string :=
  fold_left
    (fun participants row =>
       let phone := row_get row phoneColumn in
       if truthy phone && negb (instanceof_Date phone)
       then participants ++ [formatPhoneNumber (phone_value phone)]
       else participants)
    data [].

Definition group_failure (error : Thrown) : CreateGroupResult :=
  {| cg_success := false; cg_groupId := None; cg_groupName := None;
     cg_error := Some (match error with
                       | ErrorObject m => m
                       | OtherValue => "Unknown error occurred while creating group"
                       end) |}.

(** The handler object: [this.client] and [this.isReady]. *)
Record Handler (ClientState : Type) : Type := {
  h_client : option ClientState;
  isReady : bool
}.
Arguments h_client {ClientState} h.
Arguments isReady {ClientState} h.

Section Sessions.

Variable ClientState : Type.

(** [client.createGroup(name, participants)] and [client.destroy()] on the
    session: the session afterwards and the way the promise settles. *)
Variable create_group : ClientState -> string -> list string -> ClientState * GroupSettled.
Variable client_destroy : ClientState -> ClientState * Settled.

(** The [try] block of [createGroupFromExcel]: how it completes, the session
    afterwards, and the calls of [client.createGroup] it made, each with the
    group name and the participants. *)
Definition create_group_try (fs : FileSystem) (c : option ClientState)
    (filePath : string) (sheetName : option string) (phoneColumn groupName : string)
  : Completion CreateGroupResult * option ClientState * list (string * list string) :=
  match c with
  | None => (Throw (ErrorObject "WhatsApp client not initialized"), None, [])
  | Some st =>
      match readExcelFile fs filePath sheetName with
      | Throw e => (Throw e, Some st, [])
      | Normal data =>
          let participants := participants_of data phoneColumn in
          if (List.length participants =? 0)%nat
          then (Throw (ErrorObject "No valid phone numbers found in the Excel file"),
                Some st, [])
          else
            let (st', settled) := create_group st groupName participants in
            (match settled with
             | GroupRejected e => Throw e
             | GroupResolved (NoGroupId typeError) => Throw (ErrorObject typeError)
             | GroupResolved (GroupObject serialized name) =>
                 Normal {| cg_success := true; cg_groupId := serialized;
                           cg_groupName := name; cg_error := None |}
             end,
             Some st', [(groupName, participants)])
      end
  end.

Definition createGroupFromExcel (fs : FileSystem) (c : option ClientState)
    (filePath : string) (sheetName : option string) (phoneColumn groupName : string)
  : CreateGroupResult * option ClientState * list (string * list string) :=
  let '(completion, c', calls) :=
    create_group_try fs c filePath sheetName phoneColumn groupName in
  (match completion with
   | Normal result => result
   | Throw error => group_failure error
   end, c', calls).

(** [destroy]: with a client, [await this.client.destroy()], then forget the
    client; a rejection leaves the method before the two assignments. *)
Definition destroy (h : Handler ClientState) : Completion unit * Handler ClientState :=
  match h_client h with
  | None => (Normal tt, h)
  | Some st =>
      let (st', settled) := client_destroy st in
      match settled with
      | Resolved => (Normal tt, {| h_client := None; isReady := false |})
      | Rejected e => (Throw e, {| h_client := Some st'; isReady := isReady h |})
      end
  end.

(** ** The handlers of the main process ([ipcMain.handle])

    [whatsappHandler] is the handler object or [null]. *)

Record SendMessagesOptions : Type := {
  opt_data : list ExcelRow;
  opt_phoneColumn : string;
  opt_template : string;
  opt_delay : Z
}.

Record SendReply : Type := {
  reply_success : bool;
  reply_results : option SendMessagesResults;
  reply_error : option string
}.

Definition reply_message (error : Thrown) : string :=
  match error with ErrorObject m => m | OtherValue => "Unknown error" end.

Variable transport : ClientState -> string -> string -> ClientState * Settled.

(** ['send-messages']: the reply, and the history of the campaign if one ran.
    The progress callback is always given. *)
Definition ipc_send_messages (whatsappHandler : option (Handler ClientState))
    (options : SendMessagesOptions) : SendReply * list (Z * Event) :=
  match whatsappHandler with
  | None =>
      ({| reply_success := false; reply_results := None;
          reply_error := Some (reply_message (ErrorObject "WhatsApp handler not initialized")) |},
       [])
  | Some handler =>
      match sendMessages transport (opt_data options) (opt_phoneColumn options)
              (opt_template options) (opt_delay options) true
              (start (h_client handler)) with
      | (Normal results, w') =>
          ({| reply_success := true; reply_results := Some results; reply_error := None |},
           log w')
      | (Throw error, w') =>
          ({| reply_success := false; reply_results := None;
              reply_error := Some (reply_message error) |},
           log w')
      end
  end.

(** ['disconnect-whatsapp']: the reply ([success] and [error]) and
    [whatsappHandler] afterwards. *)
Definition ipc_disconnect (whatsappHandler : option (Handler ClientState))
  : bool * option string * option (Handler ClientState) :=
  match whatsappHandler with
  | None => (true, None, None)
  | Some handler =>
      match destroy handler with
      | (Normal _, _) => (true, None, None)
      | (Throw error, handler') => (false, Some (reply_message error), Some handler')
      end
  end.

End Sessions.

Arguments create_group_try {ClientState} create_group fs c filePath sheetName phoneColumn groupName.
Arguments createGroupFromExcel {ClientState} create_group fs c filePath sheetName phoneColumn groupName.
Arguments destroy {ClientState} client_destroy h.
Arguments ipc_send_messages {ClientState} transport whatsappHandler options.
Arguments ipc_disconnect {ClientState} client_destroy whatsappHandler.

(** ** The window ([App.tsx]) *)

Record LogEntry : Type := {
  le_phone : string;
  le_status : Status;
  le_error : option string
}.

Definition log_entry (progressData : ProgressData) : LogEntry :=
  {| le_phone := pd_phone progressData; le_status := pd_status progressData;
     le_error := pd_error progressData |}.

(** The listener of ['send-progress']: [progress] is replaced and the entry
    is put before the first nine of the entries so far. *)
Definition on_send_progress (progressData : ProgressData) (state : (Z * Z) * list LogEntry)
  : (Z * Z) * list LogEntry :=
  ((current progressData, pd_total progressData),
   log_entry progressData :: firstn 9 (snd state)).

(** The window after the notifications [events] arrived, in this order. *)
Definition after_send_progress (events : list ProgressData) (state : (Z * Z) * list LogEntry)
  : (Z * Z) * list LogEntry :=
  fold_left (fun state progressData => on_send_progress progressData state) events state.

Definition toggleRowSelection (index : nat) (prev : list nat) : list nat :=
  if existsb (Nat.eqb index) prev
  then filter (fun i => negb (Nat.eqb i index)) prev
  else prev ++ [index].

(** The new [selectedRows]; without data nothing changes. *)
Definition toggleSelectAll (excelData : option (list ExcelRow)) (selectedRows : list nat)
  : list nat :=
  match excelData with
  | None => selectedRows
  | Some rows =>
      if Nat.eqb (List.length selectedRows) (List.length rows)
      then []
      else seq 0 (List.length rows)
  end.

(** [dataToSend] of [handleSendMessages]; [excelData[idx]] is [undefined]
    ([None]) beyond the rows. *)
Definition dataToSend (excelData : list ExcelRow) (selectedRows : list nat)
  : list (option ExcelRow) :=
  if (0 <? List.length selectedRows)%nat
  then map (fun idx => nth_error excelData idx) selectedRows
  else map Some excelData.





(** ** The console tool ([index.ts]): reading the template

    [readlineSync.question] hands out the lines of the input one by one; when
    they run out the prompt waits ([None]).  The result is the template and
    the input left. *)
Definition newline : string := String (ascii_of_nat 10) EmptyString.

Fixpoint template_loop (input : list string) (template : string) (emptyLineCount : Z)
  : option (string * list string) :=
  if emptyLineCount <? 1 then
    match input with
    | [] => None
    | line :: input' =>
        if String.eqb line "" then template_loop input' template (emptyLineCount + 1)
        else
          let template := if String.eqb template "" then template else template +++ newline in
          template_loop input' (template +++ line) 0
    end
  else Some (template, input).

(** ** Reading a group run and a campaign side by side *)

(** The address a message was handed to the transport for. *)
Definition send_address (e : Event) : list string :=
  match e with EvSend chatId _ _ => [chatId] | _ => [] end.

(** The addresses of the rows that pass the guard, in row order. *)
Definition valid_addresses (data : list ExcelRow) (phoneColumn : string) : list string :=
  flat_map
    (fun row =>
       if ineligible phoneColumn row then []
       else [formatPhoneNumber (phone_value (row_get row phoneColumn))])
    data.

(** ** Sessions for worked examples *)

(** A session on which every send resolves. *)
Definition always_resolves (st : unit) (chatId message : string) : unit * Settled :=
  (st, Resolved).

(** A session that counts its sends and rejects the first, the third, ... *)
Definition rejects_every_other (st : nat) (chatId message : string) : nat * Settled :=
  (S st, if Nat.even st then Rejected (ErrorObject "boom") else Resolved).


(** A session whose [destroy] resolves, and one whose [destroy] rejects. *)
Definition destroy_resolves (st : unit) : unit * Settled := (st, Resolved).

Definition destroy_rejects (st : unit) : unit * Settled :=
  (st, Rejected (ErrorObject "Target closed")).

(** A disk with one workbook of two sheets and one file that is no workbook. *)
Definition sample_files : FileSystem :=
  fun path =>
    if String.eqb path "contacts.xlsx"
    then Some (Readable
                 {| SheetNames := ["Clients"; "Old"];
                    sheet_to_json := fun name =>
                      if String.eqb name "Clients"
                      then [[("Name", CStr "Ann"); ("Phone", CNum 919876543210)];
                            [("Name", CStr "Bob"); ("Phone", CStr "")]]
                      else [] |})
    else if String.eqb path "broken.xlsx"
    then Some (Unreadable (ErrorObject "Unsupported file"))
    else None.

(** * Properties *)

(** ** Strings *)

Section StringFacts.

Lemma append_nil_r (s : string) : s +++ "" = s.
Proof. induction s as [|c s IH]; simpl; [reflexivity | now rewrite IH]. Qed.

Lemma append_assoc (a b c : string) : (a +++ b) +++ c = a +++ b +++ c.
Proof. induction a as [|x a IH]; simpl; [reflexivity | now rewrite IH]. Qed.

Lemma prefix_nil (s : string) : prefix "" s = true.
Proof. destruct s; reflexivity. Qed.

Lemma prefix_cons (a c : ascii) (p s : string) :
  prefix (String a p) (String c s) = Ascii.eqb a c && prefix p s.
Proof.
  cbn [prefix]. destruct (ascii_dec a c) as [->|ne].
  - now rewrite Ascii.eqb_refl.
  - apply Ascii.eqb_neq in ne. now rewrite ne.
Qed.

Lemma prefix_append (p s : string) : prefix p (p +++ s) = true.
Proof.
  induction p as [|c p IH]; [apply prefix_nil|].
  cbn [String.append]. now rewrite prefix_cons, Ascii.eqb_refl.
Qed.

Lemma drop_append (p s : string) : drop (String.length p) (p +++ s) = s.
Proof. induction p as [|c p IH]; simpl; [reflexivity | exact IH]. Qed.

Lemma drop_length_le (n : nat) (s : string) :
  (String.length (drop n s) <= String.length s)%nat.
Proof.
  revert s; induction n as [|n IH]; intros [|c s]; simpl; try lia.
  specialize (IH s); lia.
Qed.

Lemma split_fuel_nonempty (n : nat) (p s : string) : split_fuel n p s <> [].
Proof.
  destruct n as [|n]; simpl; [discriminate|].
  destruct s as [|c s]; [discriminate|].
  destruct (prefix p (String c s)); [discriminate|].
  destruct (split_fuel n p s); discriminate.
Qed.

(** Any fuel from the length of the string on gives the same pieces. *)
Lemma split_fuel_enough (a : ascii) (p : string) (n m : nat) (s : string) :
  (String.length s <= n)%nat -> (String.length s <= m)%nat ->
  split_fuel n (String a p) s = split_fuel m (String a p) s.
Proof.
  revert m s; induction n as [|n IH]; intros m s Hn Hm.
  - destruct s; simpl in Hn; [|lia]. destruct m; reflexivity.
  - destruct s as [|c s]; [destruct m; reflexivity|].
    destruct m as [|m]; simpl in Hm; [lia|].
    simpl in Hn. cbn [split_fuel].
    destruct (prefix (String a p) (String c s)).
    + f_equal. apply IH.
      * cbn [String.length drop]. pose proof (drop_length_le (String.length p) s). lia.
      * cbn [String.length drop]. pose proof (drop_length_le (String.length p) s). lia.
    + rewrite (IH m s) by lia. reflexivity.
Qed.

Lemma replace_all_nil (a : ascii) (p v : string) :
  replace_all (String a p) v "" = "".
Proof. reflexivity. Qed.

Lemma replace_all_match (a : ascii) (p v s : string) :
  prefix (String a p) s = true ->
  replace_all (String a p) v s
  = v +++ replace_all (String a p) v (drop (String.length (String a p)) s).
Proof.
  intros Hp. unfold replace_all, split.
  destruct s as [|c s]; [discriminate|].
  cbn [String.length split_fuel]. rewrite Hp.
  rewrite (split_fuel_enough a p (String.length s)
             (String.length (drop (String.length (String a p)) (String c s)))).
  - unfold join. cbn [String.concat].
    destruct (split_fuel _ (String a p) (drop _ (String c s))) eqn:E.
    + now apply split_fuel_nonempty in E.
    + reflexivity.
  - cbn [String.length drop]. apply drop_length_le.
  - apply Nat.le_refl.
Qed.

Lemma replace_all_skip (a : ascii) (p v : string) (c : ascii) (s : string) :
  prefix (String a p) (String c s) = false ->
  replace_all (String a p) v (String c s) = String c (replace_all (String a p) v s).
Proof.
  intros Hp. unfold replace_all, split.
  cbn [String.length split_fuel]. rewrite Hp.
  destruct (split_fuel (String.length s) (String a p) s) as [|piece pieces] eqn:E.
  - now apply split_fuel_nonempty in E.
  - unfold join. cbn [String.concat]. destruct pieces; reflexivity.
Qed.

End StringFacts.

Example split_commas : split "," "a,b,,c" = ["a"; "b"; ""; "c"].
Proof. reflexivity. Qed.

Example split_overlapping : split "aa" "aaa" = [""; "a"].
Proof. reflexivity. Qed.

Example split_empty_string : split "," "" = [""].
Proof. reflexivity. Qed.

Example split_into_units : split "" "abc" = ["a"; "b"; "c"].
Proof. reflexivity. Qed.

Example split_join_replaces_all : join "-" (split "{X}" "{X}{X}a{X}") = "--a-".
Proof. reflexivity. Qed.

(** ** The renderer on templates in token form *)

Section RendererFacts.

Lemma occurs_append (c : ascii) (a b : string) :
  occurs c (a +++ b) = occurs c a || occurs c b.
Proof.
  induction a as [|x a IH]; simpl; [reflexivity|].
  now rewrite IH, orb_assoc.
Qed.

Lemma prefix_head_differs (a c : ascii) (p s : string) :
  Ascii.eqb c a = false -> prefix (String a p) (String c s) = false.
Proof.
  intros H. rewrite prefix_cons, Ascii.eqb_sym, H. reflexivity.
Qed.

(** Text without an opening brace is copied by a placeholder replacement. *)
Lemma replace_all_literal (k v s rest : string) :
  occurs open_brace s = false ->
  replace_all (placeholder k) v (s +++ rest) = s +++ replace_all (placeholder k) v rest.
Proof.
  induction s as [|c s IH]; intros H; [reflexivity|].
  simpl in H. apply orb_false_iff in H as [Hc Hs].
  change (placeholder k) with (String open_brace (k +++ "}")) in *.
  cbn [String.append]. rewrite replace_all_skip.
  - now rewrite IH.
  - now apply prefix_head_differs.
Qed.

(** Two brace-free names followed by a closing brace: one is a prefix of the
    other only when the names agree. *)
Lemma prefix_closed_names (k n rest : string) :
  occurs close_brace k = false -> occurs close_brace n = false ->
  prefix (k +++ "}") (n +++ "}" +++ rest) = true -> k = n.
Proof.
  revert n; induction k as [|a k IH]; intros [|c n] Hk Hn Hp;
    cbn [String.append occurs] in *; try rewrite prefix_cons in Hp.
  - reflexivity.
  - apply orb_false_iff in Hn as [Hc _]. fold close_brace in Hp.
    rewrite Ascii.eqb_sym, Hc in Hp. discriminate.
  - apply orb_false_iff in Hk as [Ha _]. fold close_brace in Hp.
    rewrite Ha in Hp. discriminate.
  - apply orb_false_iff in Hk as [_ Hk]. apply orb_false_iff in Hn as [_ Hn].
    apply andb_true_iff in Hp as [Hac Hp]. apply Ascii.eqb_eq in Hac. subst c.
    f_equal. now apply IH.
Qed.

Lemma replace_all_placeholder_same (k v rest : string) :
  replace_all (placeholder k) v (placeholder k +++ rest)
  = v +++ replace_all (placeholder k) v rest.
Proof.
  change (placeholder k) with (String open_brace (k +++ "}")).
  rewrite replace_all_match by apply prefix_append.
  now rewrite drop_append.
Qed.

Lemma replace_all_placeholder_other (k v n rest : string) :
  occurs close_brace k = false ->
  occurs open_brace n = false -> occurs close_brace n = false ->
  k <> n ->
  replace_all (placeholder k) v (placeholder n +++ rest)
  = placeholder n +++ replace_all (placeholder k) v rest.
Proof.
  intros Hk Hno Hnc Hne.
  change (placeholder n) with (String open_brace (n +++ "}")).
  change (placeholder k) with (String open_brace (k +++ "}")).
  cbn [String.append]. rewrite replace_all_skip.
  - f_equal. apply (replace_all_literal k v (n +++ "}") rest).
    rewrite occurs_append, Hno. reflexivity.
  - rewrite prefix_cons, Ascii.eqb_refl. cbn [andb].
    destruct (prefix (k +++ "}") ((n +++ "}") +++ rest)) eqn:E; [|reflexivity].
    rewrite append_assoc in E. now apply prefix_closed_names in E.
Qed.

Lemma replace_all_flatten (k v : string) (toks : list Token) :
  occurs close_brace k = false ->
  Forall token_plain toks ->
  replace_all (placeholder k) v (flatten toks) = flatten (map (subst_token k v) toks).
Proof.
  intros Hk Hplain. induction Hplain as [|t toks Ht _ IH].
  - reflexivity.
  - cbn [flatten fold_right map]. fold (flatten toks).
    fold (flatten (map (subst_token k v) toks)). rewrite <- IH.
    destruct t as [s|n]; cbn [subst_token token_text].
    + now apply replace_all_literal.
    + destruct Ht as [Hno Hnc]. destruct (String.eqb_spec n k) as [->|Hne].
      * apply replace_all_placeholder_same.
      * apply replace_all_placeholder_other; auto.
Qed.

Lemma subst_token_plain (k v : string) (t : Token) :
  occurs open_brace v = false -> token_plain t -> token_plain (subst_token k v t).
Proof.
  intros Hv Ht. destruct t as [s|n]; simpl; [exact Ht|].
  destruct (String.eqb n k); simpl; assumption.
Qed.

Section Sequential.

Variable value : string -> string.

Lemma subst_tokens_lit (ks : list string) (s : string) :
  subst_tokens value ks (Lit s) = Lit s.
Proof. induction ks as [|k ks IH]; simpl; [reflexivity | exact IH]. Qed.

Lemma subst_tokens_ph (ks : list string) (n : string) :
  subst_tokens value ks (Ph n)
  = if existsb (String.eqb n) ks then Lit (value n) else Ph n.
Proof.
  induction ks as [|k ks IH]; [reflexivity|].
  cbn [subst_tokens fold_left subst_token existsb].
  destruct (String.eqb_spec n k) as [->|Hne]; cbn [orb].
  - apply subst_tokens_lit.
  - exact IH.
Qed.

Lemma fold_replace_flatten (ks : list string) (toks : list Token) :
  Forall (fun k => occurs close_brace k = false
                   /\ occurs open_brace (value k) = false) ks ->
  Forall token_plain toks ->
  fold_left (fun message column =>
               join (value column) (split (placeholder column) message))
    ks (flatten toks)
  = flatten (map (subst_tokens value ks) toks).
Proof.
  intros Hks; revert toks; induction Hks as [|k ks [Hk Hv] _ IH]; intros toks Hplain.
  - cbn [fold_left]. f_equal. induction toks as [|t toks IHt]; [reflexivity|].
    cbn [map]. now inversion Hplain; subst; rewrite <- IHt.
  - cbn [fold_left]. fold (replace_all (placeholder k) (value k) (flatten toks)).
    rewrite replace_all_flatten by assumption.
    rewrite IH.
    + now rewrite map_map.
    + apply Forall_map. revert Hplain. apply Forall_impl.
      intros t. now apply subst_token_plain.
Qed.

End Sequential.

Lemma row_get_in (row : ExcelRow) (k : string) (c : Cell) :
  row_get row k = Some c -> In (k, c) row.
Proof.
  induction row as [|[k' c'] row IH]; simpl; [discriminate|].
  destruct (String.eqb_spec k' k) as [->|_].
  - intros [= ->]. now left.
  - intros H. right. now apply IH.
Qed.

Lemma row_get_keys (row : ExcelRow) (n : string) :
  existsb (String.eqb n) (keys row) = match row_get row n with Some _ => true | None => false end.
Proof.
  induction row as [|[k c] row IH]; [reflexivity|].
  cbn [keys map fst existsb row_get]. rewrite String.eqb_sym.
  destruct (String.eqb k n); [reflexivity | exact IH].
Qed.

Lemma concat_nil_cons (x : string) (l : list string) :
  String.concat "" (x :: l) = x +++ String.concat "" l.
Proof.
  destruct l; cbn [String.concat]; [now rewrite append_nil_r | reflexivity].
Qed.

(** On a plain template and a plain row [formatMessage] computes the
    replacement steps of the keys of the row, token by token. *)
Lemma formatMessage_steps (toks : list Token) (row : ExcelRow) :
  Forall token_plain toks -> row_plain row ->
  formatMessage (flatten toks) row
  = flatten (map (subst_tokens (fun k => cell_value (row_get row k)) (keys row)) toks).
Proof.
  intros Hplain Hrow. unfold formatMessage.
  apply (fold_replace_flatten (fun k => cell_value (row_get row k))); [|exact Hplain].
  unfold keys. apply Forall_map.
  unfold row_plain in Hrow. rewrite Forall_forall in *.
  intros [k c] Hin. cbn [fst]. split; [apply (Hrow _ Hin)|].
  destruct (row_get row k) as [c'|] eqn:E; [|reflexivity].
  apply row_get_in in E. apply (Hrow _ E).
Qed.

(** After the steps of all keys a token reads as if substituted at once. *)
Lemma subst_tokens_render (row : ExcelRow) (t : Token) :
  token_text (subst_tokens (fun k => cell_value (row_get row k)) (keys row) t)
  = render_token row t.
Proof.
  destruct t as [s|n]; [now rewrite subst_tokens_lit|].
  rewrite subst_tokens_ph, row_get_keys. cbn [render_token].
  destruct (row_get row n); reflexivity.
Qed.

Lemma flatten_ext (f g : Token -> Token) (toks : list Token) :
  (forall t, token_text (f t) = token_text (g t)) ->
  flatten (map f toks) = flatten (map g toks).
Proof.
  intros H. induction toks as [|t toks IH]; [reflexivity|].
  cbn [map flatten fold_right]. fold (flatten (map f toks)) (flatten (map g toks)).
  now rewrite H, IH.
Qed.

End RendererFacts.

Example formatMessage_multi :
  formatMessage "{X}-{X}" [("X", CStr "a")] = "a-a".
Proof. reflexivity. Qed.

Example formatMessage_complete :
  formatMessage "Hi {Name}, bal {Balance}" [("Name", CStr "Ann"); ("Balance", CNum 50)]
  = "Hi Ann, bal 50".
Proof. reflexivity. Qed.

Example formatMessage_missing :
  formatMessage "Hi {Missing}" [("Name", CStr "Ann")] = "Hi {Missing}".
Proof. reflexivity. Qed.

Example formatPhoneNumber_number :
  formatPhoneNumber (PNum 919876543210) = "919876543210@c.us".
Proof. reflexivity. Qed.

Example formatMessage_absent_cell :
  formatMessage "a{X}b" [("X", CUndefined)] = "ab".
Proof. reflexivity. Qed.

Section RowFacts.

Lemma row_get_of_in (row : ExcelRow) (k : string) (c : Cell) :
  NoDup (keys row) -> In (k, c) row -> row_get row k = Some c.
Proof.
  induction row as [|[k' c'] row IH]; intros Hnd Hin; [destruct Hin|].
  cbn [keys map fst] in Hnd. inversion Hnd as [|? ? Hnotin Hnd']; subst.
  cbn [row_get]. destruct Hin as [[= -> ->]|Hin].
  - now rewrite String.eqb_refl.
  - destruct (String.eqb_spec k' k) as [->|_]; [|now apply IH].
    elim Hnotin. change k with (fst (k, c)). now apply in_map.
Qed.

(** A row object read in another enumeration order answers every lookup alike. *)
Lemma row_get_permutation (row row' : ExcelRow) (k : string) :
  NoDup (keys row) -> Permutation row row' -> row_get row k = row_get row' k.
Proof.
  intros Hnd Hperm.
  assert (Hnd' : NoDup (keys row')).
  { eapply Permutation_NoDup; [|exact Hnd]. now apply Permutation_map. }
  destruct (row_get row k) as [c|] eqn:E.
  - symmetry. apply row_get_of_in; [exact Hnd'|].
    eapply Permutation_in; [exact Hperm|]. now apply row_get_in.
  - destruct (row_get row' k) as [c'|] eqn:E'; [|reflexivity].
    apply row_get_in in E'. apply (Permutation_in _ (Permutation_sym Hperm)) in E'.
    apply (row_get_of_in _ _ _ Hnd) in E'. congruence.
Qed.

End RowFacts.

(** C4, for plain templates and rows.  A template made of literal text without an opening brace
    and of placeholders with brace-free names, rendered on a row whose column
    names have no closing brace and whose cell texts have no opening brace:
    [formatMessage] replaces every occurrence of every placeholder whose
    column is a key of the row by the text of that cell, and leaves each
    placeholder of a column that is not a key of the row, and all literal
    text, as it is. *)
Theorem formatMessage_substitutes_every_occurrence :
  forall (toks : list Token) (row : ExcelRow),
    Forall token_plain toks -> row_plain row ->
    formatMessage (flatten toks) row = String.concat "" (map (render_token row) toks).
Proof.
  intros toks row Hplain Hrow.
  rewrite formatMessage_steps by assumption. clear Hplain Hrow.
  induction toks as [|t toks IH]; [reflexivity|].
  cbn [map flatten fold_right]. rewrite concat_nil_cons, <- IH.
  now rewrite subst_tokens_render.
Qed.

Lemma formatMessage_substitutes_every_occurrence_witness :
  formatMessage "{X}-{X} and {Missing}" [("X", CStr "a"); ("N", CNum 7)]
  = "a-a and {Missing}".
Proof.
  apply (formatMessage_substitutes_every_occurrence
           [Ph "X"; Lit "-"; Ph "X"; Lit " and "; Ph "Missing"]
           [("X", CStr "a"); ("N", CNum 7)]).
  - repeat constructor.
  - repeat constructor.
Defined.

(** C4 does not hold for every template and row.  The placeholder of column
    X, a key of the row, is not replaced by the text of that cell when the
    text itself holds the placeholder of a later key; and text around a
    placeholder does not stay as it is when the replacement joins it into
    the placeholder of a later key. *)
Lemma formatMessage_cell_text_is_substituted_again :
  let row := [("X", CStr "{Y}"); ("Y", CStr "b")] in
  let row' := [("B", CStr ""); ("A", CStr "1")] in
  (row_get row "X" = Some (CStr "{Y}")
   /\ formatMessage (flatten [Ph "X"]) row = "b"
   /\ formatMessage (flatten [Ph "X"]) row
      <> String.concat "" (map (render_token row) [Ph "X"]))
  /\ (formatMessage (flatten [Lit "{A"; Ph "B"; Lit "}"]) row' = "1"
      /\ formatMessage (flatten [Lit "{A"; Ph "B"; Lit "}"]) row'
         <> String.concat "" (map (render_token row') [Lit "{A"; Ph "B"; Lit "}"])).
Proof.
  cbv zeta. split; (split; [reflexivity|]); [split; [reflexivity|]|];
    vm_compute; discriminate.
Qed.

(** C5, for plain templates and rows.  On a plain template and a plain row
    (literal text without an opening brace, placeholder names without braces,
    column names without a closing brace, cell texts without an opening
    brace) the output of [formatMessage] does not depend on the order in
    which the keys of the row are enumerated. *)
Theorem formatMessage_order_irrelevant_on_plain_rows :
  forall (toks : list Token) (row row' : ExcelRow),
    Forall token_plain toks -> row_plain row ->
    NoDup (keys row) -> Permutation row row' ->
    formatMessage (flatten toks) row = formatMessage (flatten toks) row'.
Proof.
  intros toks row row' Hplain Hrow Hnd Hperm.
  assert (Hrow' : row_plain row').
  { unfold row_plain. eapply Permutation_Forall; eassumption. }
  rewrite (formatMessage_steps toks row), (formatMessage_steps toks row') by assumption.
  apply flatten_ext. intros t. rewrite !subst_tokens_render.
  destruct t as [s|n]; cbn [render_token]; [reflexivity|].
  now rewrite (row_get_permutation row row' n).
Qed.

Lemma formatMessage_order_irrelevant_on_plain_rows_witness :
  formatMessage "Hi {Name}, bal {Balance}" [("Name", CStr "Ann"); ("Balance", CNum 50)]
  = formatMessage "Hi {Name}, bal {Balance}" [("Balance", CNum 50); ("Name", CStr "Ann")].
Proof.
  apply (formatMessage_order_irrelevant_on_plain_rows
           [Lit "Hi "; Ph "Name"; Lit ", bal "; Ph "Balance"]
           [("Name", CStr "Ann"); ("Balance", CNum 50)]
           [("Balance", CNum 50); ("Name", CStr "Ann")]).
  - repeat constructor.
  - repeat constructor.
  - repeat constructor; simpl; intuition discriminate.
  - apply perm_swap.
Defined.

(** C5 does not hold for every template and row: the steps run one after
    the other in key order on the text produced so far, so the text of a cell
    is scanned by the steps of the later keys, and the same row enumerated in
    another order renders differently. *)
Lemma formatMessage_depends_on_key_order :
  let row1 := [("Name", CStr "{Title} Smith"); ("Title", CStr "Dr")] in
  let row2 := [("Title", CStr "Dr"); ("Name", CStr "{Title} Smith")] in
  Permutation row1 row2
  /\ formatMessage "Dear {Name}" row1 = "Dear Dr Smith"
  /\ formatMessage "Dear {Name}" row2 = "Dear {Title} Smith"
  /\ formatMessage "Dear {Name}" row1 <> formatMessage "Dear {Name}" row2.
Proof.
  cbv zeta. split; [apply perm_swap|]. repeat split. vm_compute. discriminate.
Qed.

Lemma replace_non_digits (s : string) :
  replace_class_global is_non_digit "" s = digits_of s.
Proof.
  unfold digits_of. induction s as [|c s IH]; [reflexivity|].
  cbn [replace_class_global list_ascii_of_string filter].
  unfold is_non_digit at 1.
  destruct (is_digit c); cbn [negb string_of_list_ascii String.append]; now rewrite IH.
Qed.

(** C6.  [formatPhoneNumber] returns the decimal digits of the string form
    of its argument, in order, followed by ["@c.us"]; without any digit the
    result is ["@c.us"] alone, and ["+1 (234) 567-8901"] gives
    ["12345678901@c.us"]. *)
Theorem formatPhoneNumber_digits_then_suffix :
  (forall phone : Phone,
      formatPhoneNumber phone = digits_of (phone_toString phone) +++ "@c.us")
  /\ (forall phone : Phone,
        existsb is_digit (list_ascii_of_string (phone_toString phone)) = false ->
        formatPhoneNumber phone = "@c.us")
  /\ formatPhoneNumber (PStr "+1 (234) 567-8901") = "12345678901@c.us".
Proof.
  split; [|split].
  - intros phone. unfold formatPhoneNumber. now rewrite replace_non_digits.
  - intros phone H. unfold formatPhoneNumber. rewrite replace_non_digits.
    unfold digits_of.
    induction (list_ascii_of_string (phone_toString phone)) as [|c l IH]; [reflexivity|].
    cbn [existsb] in H. apply orb_false_iff in H as [Hc Hl].
    cbn [filter]. rewrite Hc. now apply IH.
  - reflexivity.
Qed.

Lemma formatPhoneNumber_digits_then_suffix_witness :
  formatPhoneNumber (PStr "n/a") = "@c.us".
Proof.
  apply (proj1 (proj2 formatPhoneNumber_digits_then_suffix) (PStr "n/a")).
  reflexivity.
Defined.

(** ** The campaign loop *)

Section EngineFacts.

Variable ClientState : Type.
Variable transport : ClientState -> string -> string -> ClientState * Settled.

(** *** What the accumulated results hold *)

Lemma fold_add_detail (ds : list Detail) (r : SendMessagesResults) :
  let r' := fold_left add_detail ds r in
  total r' = total r
  /\ details r' = details r ++ ds
  /\ success r' = success r + Z.of_nat (List.length (filter (is_status Success) ds))
  /\ success r' + failed r' = success r + failed r + Z.of_nat (List.length ds).
Proof.
  revert r; induction ds as [|d ds IH]; intros r; cbn zeta.
  - cbn. rewrite app_nil_r. repeat split; lia.
  - cbn [fold_left]. destruct (IH (add_detail r d)) as (Ht & Hd & Hs & Hsf).
    clear IH. unfold add_detail, is_status, record_success, record_failed in *.
    cbn [filter].
    destruct (d_status d);
      cbn [total details success failed List.length] in *;
      (split; [congruence|]); (split; [now rewrite Hd, <- app_assoc|]);
      split; lia.
Qed.

Lemma count_statuses (ds : list Detail) :
  Forall (fun d => d_status d <> Sending) ds ->
  (List.length (filter (is_status Success) ds)
   + List.length (filter (is_status Failed) ds) = List.length ds)%nat.
Proof.
  induction 1 as [|d ds Hd _ IH]; [reflexivity|].
  assert (Hcase : (is_status Success d = true /\ is_status Failed d = false)
                  \/ (is_status Success d = false /\ is_status Failed d = true)).
  { unfold is_status. destruct (d_status d); auto. }
  cbn [filter]. destruct Hcase as [[-> ->]|[-> ->]]; cbn [List.length]; lia.
Qed.

(** *** Reading a stamped history *)

Lemma events_at_app (j : Z) (l1 l2 : list (Z * Event)) :
  events_at j (l1 ++ l2) = events_at j l1 ++ events_at j l2.
Proof. unfold events_at. now rewrite filter_app, map_app. Qed.

Lemma events_at_same (j : Z) (evs : list Event) :
  events_at j (map (pair j) evs) = evs.
Proof.
  unfold events_at. induction evs as [|e evs IH]; [reflexivity|].
  cbn. rewrite Z.eqb_refl. cbn. now f_equal.
Qed.

Lemma events_at_other (j i : Z) (evs : list Event) :
  i <> j -> events_at j (map (pair i) evs) = [].
Proof.
  intros Hne. unfold events_at. induction evs as [|e evs IH]; [reflexivity|].
  cbn. destruct (Z.eqb_spec i j); [contradiction | exact IH].
Qed.

Lemma stamped_later (i j : Z) (blocks : list (list Event * Detail)) :
  j < i -> events_at j (stamped i blocks) = [].
Proof.
  revert i; induction blocks as [|[evs d] blocks IH]; intros i Hlt; [reflexivity|].
  cbn [stamped]. rewrite events_at_app, events_at_other by lia.
  apply IH. lia.
Qed.

Lemma stamped_nth (i : Z) (blocks : list (list Event * Detail)) (k : nat)
    (evs : list Event) (d : Detail) :
  nth_error blocks k = Some (evs, d) ->
  events_at (i + Z.of_nat k) (stamped i blocks) = evs.
Proof.
  revert i k; induction blocks as [|[evs0 d0] blocks IH]; intros i k Hk.
  - destruct k; discriminate.
  - cbn [stamped]. rewrite events_at_app. destruct k as [|k]; cbn [nth_error] in Hk.
    + injection Hk as -> ->. replace (i + Z.of_nat 0) with i by lia.
      rewrite events_at_same, stamped_later by lia. apply app_nil_r.
    + rewrite events_at_other by lia.
      replace (i + Z.of_nat (S k)) with (i + 1 + Z.of_nat k) by lia.
      now apply IH.
Qed.

Lemma stamped_events (i : Z) (blocks : list (list Event * Detail)) :
  map snd (stamped i blocks) = flat_map fst blocks.
Proof.
  revert i; induction blocks as [|[evs d] blocks IH]; intros i; [reflexivity|].
  cbn [stamped flat_map fst]. rewrite map_app, IH, map_map. cbn [snd].
  now rewrite map_id.
Qed.

Lemma stamped_bounds (i : Z) (blocks : list (list Event * Detail)) :
  Forall (fun j => i <= j) (map fst (stamped i blocks)).
Proof.
  revert i; induction blocks as [|[evs d] blocks IH]; intros i; [constructor|].
  cbn [stamped]. rewrite map_app, map_map. cbn [fst]. apply Forall_app. split.
  - apply Forall_map. apply Forall_forall. cbv beta. intros; cbn [fst]; lia.
  - eapply Forall_impl; [|apply (IH (i + 1))]. cbv beta. intros; lia.
Qed.

(** The stamps of a history never decrease: the effects of an iteration
    lie between those of the iteration before and of the one after. *)
Lemma stamped_sorted (i : Z) (blocks : list (list Event * Detail)) :
  StronglySorted Z.le (map fst (stamped i blocks)).
Proof.
  revert i; induction blocks as [|[evs d] blocks IH]; intros i; [constructor|].
  cbn [stamped]. rewrite map_app, map_map. cbn [fst].
  induction evs as [|e evs IHe]; cbn [map app]; [apply IH|].
  constructor; [exact IHe|]. apply Forall_app. split.
  - apply Forall_map. apply Forall_forall. cbv beta. intros; cbn [fst]; lia.
  - eapply Forall_impl; [|apply (stamped_bounds (i + 1))]. cbv beta. intros; lia.
Qed.

(** *** Notifications, suspensions and sends in a list of effects *)

Lemma notifications_app (l1 l2 : list (Z * Event)) :
  notifications (l1 ++ l2) = notifications l1 ++ notifications l2.
Proof. apply flat_map_app. Qed.

Lemma notifications_block (j : Z) (evs : list Event) :
  notifications (map (pair j) evs) = flat_map progress_of evs.
Proof.
  unfold notifications. induction evs as [|e evs IH]; [reflexivity|].
  cbn [map flat_map snd]. now rewrite IH.
Qed.

Lemma filter_current_same (v : Z) (ps : list ProgressData) :
  Forall (fun p => current p = v) ps -> filter (fun p => current p =? v) ps = ps.
Proof.
  induction 1 as [|p ps Hp _ IH]; [reflexivity|].
  cbn [filter]. rewrite Hp, Z.eqb_refl. now f_equal.
Qed.

Lemma filter_current_other (v u : Z) (ps : list ProgressData) :
  v <> u -> Forall (fun p => current p = v) ps -> filter (fun p => current p =? u) ps = [].
Proof.
  intros Hne. induction 1 as [|p ps Hp _ IH]; [reflexivity|].
  cbn [filter]. rewrite Hp. destruct (Z.eqb_spec v u); [contradiction | exact IH].
Qed.

Lemma sorted_after_block (v : Z) (block ps : list ProgressData) :
  Forall (fun p => current p = v) block ->
  Forall (fun p => v <= current p) ps ->
  StronglySorted Z.le (map current ps) ->
  StronglySorted Z.le (map current (block ++ ps)).
Proof.
  intros Hblock Hps Hsorted. induction Hblock as [|p block Hp Hblock IH]; [exact Hsorted|].
  cbn [app map]. constructor; [exact IH|].
  rewrite map_app. apply Forall_app. split; apply Forall_map.
  - eapply Forall_impl; [|exact Hblock]. cbv beta. intros; lia.
  - eapply Forall_impl; [|exact Hps]. cbv beta. intros; lia.
Qed.

Lemma timeouts_of_progress (cb : bool) (p : ProgressData) :
  flat_map timeout_of (progress_events cb p) = [].
Proof. now destruct cb. Qed.

Lemma sends_of_progress (cb : bool) (p : ProgressData) :
  filter is_send (progress_events cb p) = [].
Proof. now destruct cb. Qed.

Lemma sends_of_pause (n delay i : Z) : filter is_send (pause n delay i) = [].
Proof. unfold pause. now destruct (i <? n - 1). Qed.

(** *** The iterations of a campaign *)

Section Rows.

Variable n : Z.
Variables phoneColumn template : string.
Variable delay : Z.
Variable cb : bool.

Local Abbreviation effect_of := (row_effect transport n phoneColumn template delay cb).
Local Abbreviation blocks_of := (run_rows transport n phoneColumn template delay cb).
Local Abbreviation history_of := (history transport n phoneColumn template delay cb).

(** The loop body does to the results and to the history what [row_effect]
    says. *)
Lemma loop_body_effect (i : Z) (row : ExcelRow) (r : SendMessagesResults)
    (w : World ClientState) :
  loop_body ClientState transport n phoneColumn template delay cb i row r w
  = let '(c', evs, d) := effect_of i row (client w) in
    (Normal (add_detail r d), logged w c' evs).
Proof.
  unfold loop_body, row_effect, ineligible, logged, progress_events, pause, notify.
  destruct w as [c l it]; cbn [client log iteration].
  destruct (negb (truthy (row_get row phoneColumn))
            || instanceof_Date (row_get row phoneColumn)).
  - destruct cb; cbn; rewrite ?app_nil_r; reflexivity.
  - unfold sendMessage, settle, try_catch, bind, this_client, client_sendMessage,
      emit, ret, throw.
    destruct c as [st|]; destruct cb; destruct (i <? n - 1); cbn;
      try (destruct (transport st _ _) as [st' [|e]]; cbn);
      rewrite <- ?app_assoc; reflexivity.
Qed.

Lemma loop_effect (rest : list ExcelRow) (i : Z) (r : SendMessagesResults)
    (w : World ClientState) :
  exists w',
    loop ClientState transport n phoneColumn template delay cb rest i r w
    = (Normal (fold_left add_detail (map snd (blocks_of rest i (client w))) r), w')
    /\ log w' = log w ++ stamped i (blocks_of rest i (client w)).
Proof.
  revert i r w; induction rest as [|row rest IH]; intros i r w.
  - exists w. cbn. now rewrite app_nil_r.
  - cbn [loop run_rows]. unfold bind at 1. unfold enter_iteration at 1.
    unfold bind at 1. rewrite loop_body_effect. cbn [client].
    destruct (effect_of i row (client w)) as [[c' evs] d].
    destruct (IH (i + 1) (add_detail r d)
                (logged {| client := client w; log := log w; iteration := i |} c' evs))
      as [w' [Hrun Hlog]].
    exists w'. cbn [client logged] in Hrun, Hlog. split.
    + exact Hrun.
    + rewrite Hlog. cbn [log iteration stamped]. now rewrite app_assoc.
Qed.

Lemma row_effect_present (i : Z) (row : ExcelRow) (c : option ClientState) :
  present (fst (fst (effect_of i row c))) = present c.
Proof.
  unfold row_effect, settle. destruct (ineligible phoneColumn row); [reflexivity|].
  destruct c as [st|]; [|reflexivity].
  now destruct (transport st _ _).
Qed.

Lemma run_rows_length (rest : list ExcelRow) (i : Z) (c : option ClientState) :
  List.length (blocks_of rest i c) = List.length rest.
Proof.
  revert i c; induction rest as [|row rest IH]; intros i c; [reflexivity|].
  cbn [run_rows]. destruct (effect_of i row c) as [[c' evs] d].
  cbn [List.length]. now rewrite IH.
Qed.

(** The block of the row at offset [k] is the effect of that row at index
    [i + k], on a session that is there exactly if the first one was. *)
Lemma run_rows_nth (rest : list ExcelRow) (i : Z) (c : option ClientState)
    (k : nat) (row : ExcelRow) :
  nth_error rest k = Some row ->
  exists ck,
    present ck = present c
    /\ nth_error (blocks_of rest i c) k
       = Some (snd (fst (effect_of (i + Z.of_nat k) row ck)),
               snd (effect_of (i + Z.of_nat k) row ck)).
Proof.
  revert i c k; induction rest as [|row0 rest IH]; intros i c k Hk.
  - destruct k; discriminate.
  - destruct k as [|k]; cbn [nth_error] in Hk.
    + injection Hk as ->. exists c. split; [reflexivity|].
      cbn [run_rows]. replace (i + Z.of_nat 0) with i by lia.
      now destruct (effect_of i row c) as [[c' evs] d].
    + cbn [run_rows]. pose proof (row_effect_present i row0 c) as Hp.
      destruct (effect_of i row0 c) as [[c' evs] d]. cbn [fst] in Hp.
      destruct (IH (i + 1) c' k Hk) as (ck & Hck & Hnth).
      exists ck. split; [congruence|].
      cbn [nth_error]. replace (i + Z.of_nat (S k)) with (i + 1 + Z.of_nat k) by lia.
      exact Hnth.
Qed.

Lemma run_rows_indices (rest : list ExcelRow) (i : Z) (c : option ClientState) :
  map (fun b => index (snd b)) (blocks_of rest i c)
  = map (fun k => i + Z.of_nat k) (seq 0 (List.length rest)).
Proof.
  revert i c; induction rest as [|row rest IH]; intros i c; [reflexivity|].
  cbn [run_rows List.length seq map].
  assert (Hi : index (snd (effect_of i row c)) = i).
  { unfold row_effect. destruct (ineligible phoneColumn row); [reflexivity|].
    now destruct (settle transport c _ _) as [[c' sent] err]. }
  destruct (effect_of i row c) as [[c' evs] d]. cbn [map snd] in *.
  rewrite Hi, IH, <- seq_shift, map_map. f_equal; [lia|].
  apply map_ext. intros k. lia.
Qed.

Lemma run_rows_statuses (rest : list ExcelRow) (i : Z) (c : option ClientState) :
  Forall (fun b => d_status (snd b) <> Sending) (blocks_of rest i c).
Proof.
  revert i c; induction rest as [|row rest IH]; intros i c; [constructor|].
  cbn [run_rows].
  assert (Hs : d_status (snd (effect_of i row c)) <> Sending).
  { unfold row_effect. destruct (ineligible phoneColumn row); [discriminate|].
    destruct (settle transport c _ _) as [[c' sent] [err|]]; discriminate. }
  destruct (effect_of i row c) as [[c' evs] d].
  constructor; [exact Hs | apply IH].
Qed.

Lemma timeouts_of_settle (c : option ClientState) (chatId message : string) :
  flat_map timeout_of (snd (fst (settle transport c chatId message))) = [].
Proof.
  unfold settle. destruct c as [st|]; [|reflexivity].
  now destruct (transport st chatId message).
Qed.

(** Without a session no iteration reaches the transport or succeeds. *)
Lemma run_rows_no_session (rest : list ExcelRow) (i : Z) :
  Forall (fun b => existsb is_send (fst b) = false /\ is_status Success (snd b) = false)
    (blocks_of rest i None).
Proof.
  revert i; induction rest as [|row rest IH]; intros i; [constructor|].
  cbn [run_rows]. unfold row_effect, settle.
  destruct (ineligible phoneColumn row).
  - constructor; [|apply IH]. cbn [fst snd]. split; [now destruct cb | reflexivity].
  - constructor; [|apply IH]. cbn [fst snd]. split; [|reflexivity].
    unfold pause. now destruct cb; destruct (i <? n - 1).
Qed.

(** On a session every iteration of a row that passes the guard hands
    exactly one message to the transport, a skipped row none. *)
Lemma run_rows_sends (rest : list ExcelRow) (i : Z) (c : option ClientState) :
  present c = true ->
  List.length (filter is_send (flat_map fst (blocks_of rest i c)))
  = List.length (filter (fun row => negb (ineligible phoneColumn row)) rest).
Proof.
  revert i c; induction rest as [|row rest IH]; intros i c Hc; [reflexivity|].
  cbn [run_rows filter]. pose proof (row_effect_present i row c) as Hp.
  unfold row_effect, settle in *.
  destruct (ineligible phoneColumn row); cbn [negb].
  - cbn [flat_map fst]. rewrite filter_app, sends_of_progress. cbn [app].
    now apply IH.
  - destruct c as [st|]; [|discriminate].
    destruct (transport st _ _) as [st' o]. cbn [fst] in Hp.
    cbn [flat_map fst]. rewrite !filter_app, !sends_of_progress, sends_of_pause.
    cbn [filter is_send app List.length]. f_equal. now apply IH.
Qed.

(** Every notification of iteration [i] reports position [i + 1]. *)
Lemma row_effect_currents (i : Z) (row : ExcelRow) (c : option ClientState) :
  Forall (fun p => current p = i + 1)
    (flat_map progress_of (snd (fst (effect_of i row c)))).
Proof.
  unfold row_effect, settle, pause, progress_events.
  destruct (ineligible phoneColumn row).
  - destruct cb; repeat constructor.
  - destruct c as [st|]; [destruct (transport st _ _) as [st' o]|];
      destruct cb; destruct (i <? n - 1); repeat constructor.
Qed.

(** The notifications of a campaign report positions that never decrease. *)
Lemma history_currents (rest : list ExcelRow) (i : Z) (c : option ClientState) :
  Forall (fun p => i + 1 <= current p) (notifications (history_of rest i c))
  /\ StronglySorted Z.le (map current (notifications (history_of rest i c))).
Proof.
  unfold history. revert i c; induction rest as [|row rest IH]; intros i c.
  - split; constructor.
  - cbn [run_rows].
    pose proof (row_effect_currents i row c) as Hcur.
    destruct (effect_of i row c) as [[c' evs] d].
    cbn [fst snd] in Hcur. cbn [stamped].
    rewrite notifications_app, notifications_block.
    destruct (IH (i + 1) c') as [Hge Hsorted]. split.
    + apply Forall_app. split.
      * eapply Forall_impl; [|exact Hcur]. cbv beta. intros; lia.
      * eapply Forall_impl; [|exact Hge]. cbv beta. intros; lia.
    + apply (sorted_after_block (i + 1)); [exact Hcur| |exact Hsorted].
      eapply Forall_impl; [|exact Hge]. cbv beta. intros; lia.
Qed.

(** The notifications that report position [j + 1] are those of
    iteration [j], in the order of their emission. *)
Lemma history_notifications_for (rest : list ExcelRow) (i : Z)
    (c : option ClientState) (j : Z) :
  notifications_for (j + 1) (history_of rest i c)
  = flat_map progress_of (events_at j (history_of rest i c)).
Proof.
  unfold history. revert i c; induction rest as [|row rest IH]; intros i c; [reflexivity|].
  cbn [run_rows].
  pose proof (row_effect_currents i row c) as Hcur.
  destruct (effect_of i row c) as [[c' evs] d].
  cbn [fst snd] in Hcur. cbn [stamped]. unfold notifications_for in *.
  rewrite notifications_app, filter_app, events_at_app, flat_map_app, IH.
  f_equal. rewrite notifications_block.
  destruct (Z.eq_dec i j) as [->|Hne].
  - rewrite events_at_same. now apply filter_current_same.
  - rewrite events_at_other by exact Hne.
    apply (filter_current_other (i + 1)); [lia | exact Hcur].
Qed.

End Rows.

(** *** Whole campaigns *)

(** A campaign on the session [c]: it returns, and what it returns and
    leaves in the history is what the iterations of its rows give. *)
Lemma sendMessages_effect (data : list ExcelRow) (phoneColumn template : string)
    (delay : Z) (cb : bool) (c : option ClientState) :
  let n := Z.of_nat (List.length data) in
  let blocks := run_rows transport n phoneColumn template delay cb data 0 c in
  exists r w',
    sendMessages transport data phoneColumn template delay cb (start c) = (Normal r, w')
    /\ total r = n
    /\ details r = map snd blocks
    /\ success r = Z.of_nat (List.length (filter (is_status Success) (map snd blocks)))
    /\ success r + failed r = n
    /\ log w' = stamped 0 blocks.
Proof.
  intros n blocks. unfold sendMessages.
  destruct (loop_effect n phoneColumn template delay cb data 0
              {| total := n; success := 0; failed := 0; details := [] |} (start c))
    as [w' [Hrun Hlog]].
  fold n. rewrite Hrun. cbn [start client log] in *. fold blocks in Hlog |- *.
  destruct (fold_add_detail (map snd blocks)
              {| total := n; success := 0; failed := 0; details := [] |})
    as (Ht & Hd & Hs & Hsf).
  eexists; exists w'. split; [reflexivity|].
  cbn [total details success failed app] in *.
  repeat split; try assumption.
  rewrite Hsf. unfold blocks. rewrite length_map, run_rows_length. lia.
Qed.

(** The view of one row of a campaign: the iteration of the row at position
    [i] ran on some session [ck], appended its detail at position [i] and
    wrote its effects under the stamp [i]. *)
Lemma blocks_row (data : list ExcelRow) (phoneColumn template : string)
    (delay : Z) (cb : bool) (c : option ClientState) (i : nat) (row : ExcelRow) :
  let n := Z.of_nat (List.length data) in
  let blocks := run_rows transport n phoneColumn template delay cb data 0 c in
  nth_error data i = Some row ->
  exists ck,
    present ck = present c
    /\ nth_error (map snd blocks) i
       = Some (snd (row_effect transport n phoneColumn template delay cb (Z.of_nat i) row ck))
    /\ events_at (Z.of_nat i) (stamped 0 blocks)
       = snd (fst (row_effect transport n phoneColumn template delay cb (Z.of_nat i) row ck)).
Proof.
  intros n blocks Hi.
  destruct (run_rows_nth n phoneColumn template delay cb data 0 c i row Hi)
    as (ck & Hck & Hnth).
  exists ck. split; [exact Hck|]. cbn [Z.add] in Hnth. split.
  - unfold blocks. now rewrite nth_error_map, Hnth.
  - apply (stamped_nth 0 _ i _ _ Hnth).
Qed.

(** The iteration of a row that the guard skips: the fixed detail, the
    fixed notification if there is a callback, and nothing else. *)
Lemma skipped_row (data : list ExcelRow) (phoneColumn template : string)
    (delay : Z) (cb : bool) (c : option ClientState) (i : nat) (row : ExcelRow) :
  nth_error data i = Some row ->
  ineligible phoneColumn row = true ->
  exists r w',
    sendMessages transport data phoneColumn template delay cb (start c) = (Normal r, w')
    /\ nth_error (details r) i = Some (skipped_detail (Z.of_nat i))
    /\ events_at (Z.of_nat i) (log w')
       = if cb
         then [EvProgress (skipped_progress (Z.of_nat (List.length data)) (Z.of_nat i))]
         else [].
Proof.
  intros Hi Hskip.
  destruct (sendMessages_effect data phoneColumn template delay cb c)
    as (r & w' & Hrun & _ & Hd & _ & _ & Hlog).
  destruct (blocks_row data phoneColumn template delay cb c i row Hi)
    as (ck & _ & Hdet & Hev).
  unfold row_effect in Hdet, Hev. rewrite Hskip in Hdet, Hev.
  exists r, w'. split; [exact Hrun|]. split.
  - now rewrite Hd.
  - now rewrite Hlog.
Qed.

(** C1.  Every campaign returns a result in which the successes and the
    failures add up to the total, the total is the number of details and
    the number of input rows, and the details carry the row indices
    0, 1, ..., one detail for each row. *)
Theorem sendMessages_counts_add_up :
  forall (data : list ExcelRow) (phoneColumn template : string) (delay : Z)
         (progressCallback : bool) (c : option ClientState),
  exists r w',
    sendMessages transport data phoneColumn template delay progressCallback (start c)
    = (Normal r, w')
    /\ success r + failed r = total r
    /\ total r = Z.of_nat (List.length (details r))
    /\ total r = Z.of_nat (List.length data)
    /\ map index (details r) = map Z.of_nat (seq 0 (List.length data)).
Proof.
  intros data phoneColumn template delay cb c.
  destruct (sendMessages_effect data phoneColumn template delay cb c)
    as (r & w' & Hrun & Ht & Hd & _ & Hsf & _).
  exists r, w'. split; [exact Hrun|].
  repeat split.
  - lia.
  - now rewrite Hd, length_map, run_rows_length.
  - exact Ht.
  - rewrite Hd, map_map, run_rows_indices. apply map_ext. intros k. lia.
Qed.

(** C2, with the skipped rows set apart.  In every campaign the history is ordered by
    iteration, and the iteration of row [i] ends with one suspension of
    [delay * 1000] milliseconds exactly when the row was sent to the
    transport (it passed the guard) and is not the last row; it holds no
    other suspension, and none at all when the row was skipped as
    ['No phone number'] or is the last row. *)
Theorem pause_follows_each_sent_row_but_the_last :
  forall (data : list ExcelRow) (phoneColumn template : string) (delay : Z)
         (progressCallback : bool) (c : option ClientState)
         (i : nat) (row : ExcelRow),
    nth_error data i = Some row ->
    exists r w' body,
      sendMessages transport data phoneColumn template delay progressCallback (start c)
      = (Normal r, w')
      /\ StronglySorted Z.le (map fst (log w'))
      /\ events_at (Z.of_nat i) (log w')
         = body ++ (if ineligible phoneColumn row then []
                    else if Z.of_nat i <? Z.of_nat (List.length data) - 1
                         then [EvTimeout (delay * 1000)] else [])
      /\ flat_map timeout_of body = [].
Proof.
  intros data phoneColumn template delay cb c i row Hi.
  destruct (sendMessages_effect data phoneColumn template delay cb c)
    as (r & w' & Hrun & _ & _ & _ & _ & Hlog).
  destruct (blocks_row data phoneColumn template delay cb c i row Hi)
    as (ck & _ & _ & Hev).
  rewrite <- Hlog in Hev. unfold row_effect in Hev.
  destruct (ineligible phoneColumn row).
  - exists r, w',
      (progress_events cb (skipped_progress (Z.of_nat (List.length data)) (Z.of_nat i))).
    split; [exact Hrun|]. split; [rewrite Hlog; apply stamped_sorted|].
    split; [now rewrite app_nil_r | apply timeouts_of_progress].
  - pose proof (timeouts_of_settle ck
                  (formatPhoneNumber (phone_value (row_get row phoneColumn)))
                  (formatMessage template row)) as Hsent.
    destruct (settle transport ck _ _) as [[c' sent] err]. cbn [fst snd] in Hev, Hsent.
    eexists r, w', _. split; [exact Hrun|]. split; [rewrite Hlog; apply stamped_sorted|].
    split.
    + rewrite Hev. unfold pause. rewrite !app_assoc. reflexivity.
    + rewrite !flat_map_app, !timeouts_of_progress, Hsent. reflexivity.
Qed.

(** C3, as the handler behaves.  When the client is not initialized the campaign does
    not throw: it returns its result, in which no send succeeded and every
    row failed; a row that passed the guard is recorded with the error
    ['WhatsApp client not initialized'], a skipped row with
    ['No phone number']; nothing was handed to the transport. *)
Theorem sendMessages_without_client_fails_every_row :
  forall (data : list ExcelRow) (phoneColumn template : string) (delay : Z)
         (progressCallback : bool) (i : nat) (row : ExcelRow),
    nth_error data i = Some row ->
    exists r w',
      sendMessages transport data phoneColumn template delay progressCallback (start None)
      = (Normal r, w')
      /\ success r = 0
      /\ failed r = Z.of_nat (List.length data)
      /\ existsb is_send (map snd (log w')) = false
      /\ nth_error (details r) i
         = Some (if ineligible phoneColumn row then skipped_detail (Z.of_nat i)
                 else sent_detail phoneColumn (Z.of_nat i) row
                        (Some "WhatsApp client not initialized")).
Proof.
  intros data phoneColumn template delay cb i row Hi.
  destruct (sendMessages_effect data phoneColumn template delay cb None)
    as (r & w' & Hrun & _ & Hd & Hs & Hsf & Hlog).
  pose proof (run_rows_no_session (Z.of_nat (List.length data)) phoneColumn template
                delay cb data 0) as Hnone.
  assert (Hs0 : success r = 0).
  { rewrite Hs. clear - Hnone. induction Hnone as [|b bs [_ Hb] _ IH]; [reflexivity|].
    cbn [map filter]. now rewrite Hb. }
  exists r, w'. split; [exact Hrun|]. split; [exact Hs0|]. split; [lia|]. split.
  - rewrite Hlog, stamped_events. clear - Hnone.
    induction Hnone as [|b bs [Hb _] _ IH]; [reflexivity|].
    cbn [flat_map]. now rewrite existsb_app, Hb, IH.
  - destruct (blocks_row data phoneColumn template delay cb None i row Hi)
      as (ck & Hck & Hdet & _).
    destruct ck as [st|]; [discriminate|].
    rewrite Hd, Hdet. unfold row_effect, settle.
    now destruct (ineligible phoneColumn row).
Qed.

(** C7.  On a session a campaign never throws, whatever the sends do: it
    returns its result.  A row that passes the guard is handed to the
    transport exactly once, with its normalised destination and its
    rendered message; the way that one send settles decides the detail of
    the row: success, or failed with the description of the rejection.
    Over the whole campaign there is one send for each such row, and the
    counters are the numbers of failed and of successful details. *)
Theorem send_failures_are_recorded_and_the_campaign_goes_on :
  forall (data : list ExcelRow) (phoneColumn template : string) (delay : Z)
         (progressCallback : bool) (st : ClientState) (i : nat) (row : ExcelRow),
    nth_error data i = Some row ->
    ineligible phoneColumn row = false ->
    exists r w' o,
      sendMessages transport data phoneColumn template delay progressCallback
        (start (Some st)) = (Normal r, w')
      /\ filter is_send (events_at (Z.of_nat i) (log w'))
         = [EvSend (formatPhoneNumber (phone_value (row_get row phoneColumn)))
              (formatMessage template row) o]
      /\ nth_error (details r) i
         = Some (sent_detail phoneColumn (Z.of_nat i) row (verdict o))
      /\ List.length (filter is_send (map snd (log w')))
         = List.length (filter (fun row => negb (ineligible phoneColumn row)) data)
      /\ failed r = Z.of_nat (List.length (filter (is_status Failed) (details r)))
      /\ success r = Z.of_nat (List.length (filter (is_status Success) (details r))).
Proof.
  intros data phoneColumn template delay cb st i row Hi Hel.
  destruct (sendMessages_effect data phoneColumn template delay cb (Some st))
    as (r & w' & Hrun & Ht & Hd & Hs & Hsf & Hlog).
  destruct (blocks_row data phoneColumn template delay cb (Some st) i row Hi)
    as (ck & Hck & Hdet & Hev).
  destruct ck as [sk|]; [|discriminate].
  rewrite <- Hlog in Hev. rewrite <- Hd in Hdet.
  unfold row_effect, settle in Hev, Hdet. rewrite Hel in Hev, Hdet.
  destruct (transport sk _ _) as [sk' o]. cbn [fst snd] in Hev, Hdet.
  exists r, w', o. split; [exact Hrun|]. split; [|split; [exact Hdet|]].
  - rewrite Hev, !filter_app, !sends_of_progress, sends_of_pause. reflexivity.
  - split; [rewrite Hlog, stamped_events; now apply run_rows_sends|].
    assert (Hst : Forall (fun d => d_status d <> Sending) (details r)).
    { rewrite Hd. apply Forall_map. apply run_rows_statuses. }
    pose proof (count_statuses _ Hst) as Hcount.
    assert (Hlen : List.length (details r) = List.length data)
      by now rewrite Hd, length_map, run_rows_length.
    rewrite <- Hd in Hs. split; [lia | exact Hs].
Qed.

(** C8.  With a progress callback: the positions reported by the
    notifications never decrease along the history, so every notification
    of a row comes before every notification of the next row; the
    notifications of a skipped row are its one 'failed' notification,
    those of a row that passes the guard are its 'sending' notification
    followed by its one 'success' or 'failed' notification; and the details
    carry the row indices 0, 1, ... in this order, none missing and none
    twice. *)
Theorem notifications_and_details_follow_row_order :
  forall (data : list ExcelRow) (phoneColumn template : string) (delay : Z)
         (c : option ClientState) (i : nat) (row : ExcelRow),
    nth_error data i = Some row ->
    let n := Z.of_nat (List.length data) in
    exists r w' err,
      sendMessages transport data phoneColumn template delay true (start c)
      = (Normal r, w')
      /\ StronglySorted Z.le (map current (notifications (log w')))
      /\ notifications_for (Z.of_nat i + 1) (log w')
         = (if ineligible phoneColumn row
            then [skipped_progress n (Z.of_nat i)]
            else [sending_progress n phoneColumn (Z.of_nat i) row;
                  sent_progress n phoneColumn (Z.of_nat i) row err])
      /\ map index (details r) = map Z.of_nat (seq 0 (List.length data)).
Proof.
  intros data phoneColumn template delay c i row Hi n.
  destruct (sendMessages_effect data phoneColumn template delay true c)
    as (r & w' & Hrun & _ & Hd & _ & _ & Hlog).
  destruct (blocks_row data phoneColumn template delay true c i row Hi)
    as (ck & _ & _ & Hev).
  fold n in Hd, Hlog, Hev.
  assert (Hfor : notifications_for (Z.of_nat i + 1) (log w')
                 = flat_map progress_of
                     (snd (fst (row_effect transport n phoneColumn template delay true
                                  (Z.of_nat i) row ck)))).
  { rewrite Hlog. rewrite <- Hev. apply history_notifications_for. }
  assert (Hidx : map index (details r) = map Z.of_nat (seq 0 (List.length data))).
  { rewrite Hd, map_map, run_rows_indices. apply map_ext. intros k. lia. }
  assert (Hsorted : StronglySorted Z.le (map current (notifications (log w')))).
  { rewrite Hlog. apply history_currents. }
  unfold row_effect, settle, pause in Hfor.
  destruct (ineligible phoneColumn row).
  - exists r, w', None. repeat split; assumption.
  - destruct ck as [sk|].
    + destruct (transport sk _ _) as [sk' o].
      exists r, w', (verdict o). split; [exact Hrun|]. split; [exact Hsorted|].
      split; [|exact Hidx]. rewrite Hfor.
      destruct (Z.of_nat i <? n - 1); reflexivity.
    + exists r, w', (Some "WhatsApp client not initialized").
      split; [exact Hrun|]. split; [exact Hsorted|].
      split; [|exact Hidx]. rewrite Hfor.
      destruct (Z.of_nat i <? n - 1); reflexivity.
Qed.


(** C10.  A row whose destination cell holds the number 0 or the empty string
    is skipped like a row without the cell, although the column is a key of
    the row: the guard tests the truthiness of the value, not the presence
    of the key.  The detail is failed / ['No phone number'] / ['N/A'] and
    nothing is handed to the transport. *)
Theorem falsy_destination_is_skipped :
  forall (data : list ExcelRow) (phoneColumn template : string) (delay : Z)
         (progressCallback : bool) (c : option ClientState)
         (i : nat) (row : ExcelRow),
    nth_error data i = Some row ->
    (row_get row phoneColumn = Some (CNum 0)
     \/ row_get row phoneColumn = Some (CStr "")) ->
    In phoneColumn (keys row)
    /\ exists r w',
         sendMessages transport data phoneColumn template delay progressCallback (start c)
         = (Normal r, w')
         /\ nth_error (details r) i
            = Some {| index := Z.of_nat i; d_phone := "N/A"; d_status := Failed;
                      d_error := Some "No phone number" |}
         /\ filter is_send (events_at (Z.of_nat i) (log w')) = []
         /\ events_at (Z.of_nat i) (log w')
            = if progressCallback
              then [EvProgress {| current := Z.of_nat i + 1;
                                  pd_total := Z.of_nat (List.length data);
                                  pd_phone := "N/A"; pd_status := Failed;
                                  pd_error := Some "No phone number" |}]
              else [].
Proof.
  intros data phoneColumn template delay cb c i row Hi Hcell. split.
  - unfold keys. change phoneColumn with (fst (phoneColumn, CNum 0)) at 1.
    destruct Hcell as [H|H]; apply row_get_in in H;
      apply (in_map fst) in H; exact H.
  - destruct (skipped_row data phoneColumn template delay cb c i row Hi)
      as (r & w' & Hrun & Hdet & Hev).
    + unfold ineligible. destruct Hcell as [-> | ->]; reflexivity.
    + exists r, w'. split; [exact Hrun|]. split; [exact Hdet|].
      split; [|exact Hev]. rewrite Hev. now destruct cb.
Qed.

End EngineFacts.

Lemma pause_follows_each_sent_row_but_the_last_witness :
  let data := [[("Phone", CStr "111")]; [("Name", CStr "B")]; [("Phone", CNum 333)]] in
  nth_error data 0 = Some [("Phone", CStr "111")]
  /\ exists r w' body,
       sendMessages always_resolves data "Phone" "Hi" 5 true (start (Some tt))
       = (Normal r, w')
       /\ StronglySorted Z.le (map fst (log w'))
       /\ events_at 0 (log w') = body ++ [EvTimeout (5 * 1000)]
       /\ flat_map timeout_of body = [].
Proof.
  cbv zeta. split; [reflexivity|].
  apply (pause_follows_each_sent_row_but_the_last unit always_resolves
           [[("Phone", CStr "111")]; [("Name", CStr "B")]; [("Phone", CNum 333)]]
           "Phone" "Hi" 5 true (Some tt) 0%nat [("Phone", CStr "111")]).
  reflexivity.
Defined.

(** C2 does not hold after a skipped row: between a skipped row and the row
    after it there is no suspension.  Row 0 has no phone number, row 1 is
    sent, the delay is 5: the campaign never suspends. *)
Lemma no_pause_after_a_skipped_row :
  let data := [[("Name", CStr "A")]; [("Name", CStr "B"); ("Phone", CStr "123")]] in
  let run := sendMessages always_resolves data "Phone" "Hi {Name}" 5 true (start (Some tt)) in
  flat_map timeout_of (map snd (log (snd run))) = []
  /\ ~ (forall i : Z, 0 <= i < Z.of_nat (List.length data) - 1 ->
          flat_map timeout_of (events_at i (log (snd run))) = [5 * 1000]).
Proof.
  cbv zeta. split; [reflexivity|].
  intros H. specialize (H 0 ltac:(cbn; lia)). vm_compute in H. discriminate.
Qed.

Lemma sendMessages_without_client_fails_every_row_witness :
  let data := [[("Phone", CStr "111")]; [("Name", CStr "B")]] in
  nth_error data 0 = Some [("Phone", CStr "111")]
  /\ exists r w',
       sendMessages always_resolves data "Phone" "Hi" 5 true (start None) = (Normal r, w')
       /\ success r = 0
       /\ failed r = 2
       /\ existsb is_send (map snd (log w')) = false
       /\ nth_error (details r) 0
          = Some {| index := 0; d_phone := "111"; d_status := Failed;
                    d_error := Some "WhatsApp client not initialized" |}.
Proof.
  cbv zeta. split; [reflexivity|].
  apply (sendMessages_without_client_fails_every_row unit always_resolves
           [[("Phone", CStr "111")]; [("Name", CStr "B")]] "Phone" "Hi" 5 true
           0%nat [("Phone", CStr "111")]).
  reflexivity.
Defined.

(** C3 does not hold: without an initialized client the call on one row
    that passes the guard does not throw; the row is attempted (its 'sending'
    notification goes out) and the call returns a result in which it failed. *)
Lemma sendMessages_without_client_returns :
  let run := sendMessages always_resolves [[("Phone", CStr "123")]] "Phone" "Hi" 5 true
               (start None) in
  fst run
  = Normal {| total := 1; success := 0; failed := 1;
              details := [{| index := 0; d_phone := "123"; d_status := Failed;
                             d_error := Some "WhatsApp client not initialized" |}] |}
  /\ (forall e : Thrown, fst run <> Throw e)
  /\ map pd_status (notifications (log (snd run))) = [Sending; Failed].
Proof.
  cbv zeta. split; [reflexivity|]. split; [|reflexivity].
  intros e. vm_compute. discriminate.
Qed.

Lemma send_failures_are_recorded_and_the_campaign_goes_on_witness :
  let data := [[("Phone", CStr "111")]; [("Phone", CStr "+1 (234) 567-8901")]] in
  nth_error data 1 = Some [("Phone", CStr "+1 (234) 567-8901")]
  /\ ineligible "Phone" [("Phone", CStr "+1 (234) 567-8901")] = false
  /\ exists r w' o,
       sendMessages rejects_every_other data "Phone" "Hi" 5 true (start (Some 0%nat))
       = (Normal r, w')
       /\ filter is_send (events_at 1 (log w')) = [EvSend "12345678901@c.us" "Hi" o]
       /\ nth_error (details r) 1
          = Some (sent_detail "Phone" 1 [("Phone", CStr "+1 (234) 567-8901")] (verdict o))
       /\ List.length (filter is_send (map snd (log w'))) = 2%nat
       /\ failed r = Z.of_nat (List.length (filter (is_status Failed) (details r)))
       /\ success r = Z.of_nat (List.length (filter (is_status Success) (details r))).
Proof.
  cbv zeta. split; [reflexivity|]. split; [reflexivity|].
  apply (send_failures_are_recorded_and_the_campaign_goes_on nat rejects_every_other
           [[("Phone", CStr "111")]; [("Phone", CStr "+1 (234) 567-8901")]]
           "Phone" "Hi" 5 true 0%nat 1%nat [("Phone", CStr "+1 (234) 567-8901")]);
    reflexivity.
Defined.

(** Continue after a failure: the send of row 0 is rejected, row 1 is still
    sent and succeeds, and the counts show both. *)
Example continue_after_failure :
  fst (sendMessages rejects_every_other
         [[("Phone", CStr "111")]; [("Phone", CStr "222")]] "Phone" "Hi" 5 false
         (start (Some 0%nat)))
  = Normal {| total := 2; success := 1; failed := 1;
              details := [{| index := 0; d_phone := "111"; d_status := Failed;
                             d_error := Some "boom" |};
                          {| index := 1; d_phone := "222"; d_status := Success;
                             d_error := None |}] |}.
Proof. reflexivity. Qed.

(** Three rows and a delay of 5: two suspensions of 5000 ms, after rows 0 and 1. *)
Example no_delay_after_last :
  let run := sendMessages always_resolves
               [[("Phone", CStr "1")]; [("Phone", CStr "2")]; [("Phone", CStr "3")]]
               "Phone" "Hi" 5 false (start (Some tt)) in
  flat_map timeout_of (events_at 0 (log (snd run))) = [5000]
  /\ flat_map timeout_of (events_at 1 (log (snd run))) = [5000]
  /\ flat_map timeout_of (events_at 2 (log (snd run))) = [].
Proof. cbv zeta. repeat split. Qed.

Lemma notifications_and_details_follow_row_order_witness :
  let data := [[("Phone", CStr "111")]; [("Name", CStr "B")]] in
  nth_error data 0 = Some [("Phone", CStr "111")]
  /\ exists r w' err,
       sendMessages rejects_every_other data "Phone" "Hi" 5 true (start (Some 0%nat))
       = (Normal r, w')
       /\ StronglySorted Z.le (map current (notifications (log w')))
       /\ notifications_for 1 (log w')
          = [sending_progress 2 "Phone" 0 [("Phone", CStr "111")];
             sent_progress 2 "Phone" 0 [("Phone", CStr "111")] err]
       /\ map index (details r) = [0; 1].
Proof.
  cbv zeta. split; [reflexivity|].
  apply (notifications_and_details_follow_row_order nat rejects_every_other
           [[("Phone", CStr "111")]; [("Name", CStr "B")]] "Phone" "Hi" 5
           (Some 0%nat) 0%nat [("Phone", CStr "111")]).
  reflexivity.
Defined.


Lemma falsy_destination_is_skipped_witness :
  let data := [[("Name", CStr "A"); ("Phone", CNum 0)]; [("Phone", CStr "222")]] in
  nth_error data 0 = Some [("Name", CStr "A"); ("Phone", CNum 0)]
  /\ row_get [("Name", CStr "A"); ("Phone", CNum 0)] "Phone" = Some (CNum 0)
  /\ In "Phone" (keys [("Name", CStr "A"); ("Phone", CNum 0)])
  /\ exists r w',
       sendMessages always_resolves data "Phone" "Hi {Name}" 5 true (start (Some tt))
       = (Normal r, w')
       /\ nth_error (details r) 0
          = Some {| index := 0; d_phone := "N/A"; d_status := Failed;
                    d_error := Some "No phone number" |}
       /\ filter is_send (events_at 0 (log w')) = []
       /\ events_at 0 (log w')
          = [EvProgress {| current := 1; pd_total := 2; pd_phone := "N/A";
                           pd_status := Failed; pd_error := Some "No phone number" |}].
Proof.
  cbv zeta. split; [reflexivity|]. split; [reflexivity|].
  apply (falsy_destination_is_skipped unit always_resolves
           [[("Name", CStr "A"); ("Phone", CNum 0)]; [("Phone", CStr "222")]]
           "Phone" "Hi {Name}" 5 true (Some tt) 0%nat
           [("Name", CStr "A"); ("Phone", CNum 0)]).
  - reflexivity.
  - left; reflexivity.
Defined.

(** * More of the handler, and its callers *)

(** ** The renderer and the normaliser, once more *)

Section RendererMore.

Lemma replace_all_plain_text (k v s : string) :
  occurs open_brace s = false -> replace_all (placeholder k) v s = s.
Proof.
  intros H. rewrite <- (append_nil_r s) at 1.
  rewrite replace_all_literal by exact H.
  change (placeholder k) with (String open_brace (k +++ "}")).
  now rewrite replace_all_nil, append_nil_r.
Qed.

Lemma digits_of_append (a b : string) :
  digits_of (a +++ b) = digits_of a +++ digits_of b.
Proof.
  unfold digits_of. induction a as [|c a IH]; [reflexivity|].
  cbn [String.append list_ascii_of_string filter].
  destruct (is_digit c); cbn [string_of_list_ascii String.append]; now rewrite IH.
Qed.

Lemma digits_of_digits (s : string) : digits_of (digits_of s) = digits_of s.
Proof.
  unfold digits_of. induction s as [|c s IH]; [reflexivity|].
  cbn [list_ascii_of_string filter].
  destruct (is_digit c) eqn:E; [|exact IH].
  cbn [string_of_list_ascii list_ascii_of_string filter]. rewrite E.
  cbn [string_of_list_ascii]. now rewrite IH.
Qed.



End RendererMore.

(** X1.  A template without an opening brace is rendered as it is, whatever
    the row holds: its keys, its cell texts and their order do not matter. *)
Theorem formatMessage_plain_template_unchanged :
  forall (template : string) (rowData : ExcelRow),
    occurs open_brace template = false ->
    formatMessage template rowData = template.
Proof.
  intros template rowData H. unfold formatMessage.
  induction (keys rowData) as [|k ks IH]; [reflexivity|].
  cbn [fold_left].
  fold (replace_all (placeholder k) (cell_value (row_get rowData k)) template).
  now rewrite replace_all_plain_text.
Qed.

Lemma formatMessage_plain_template_unchanged_witness :
  formatMessage "Hello, see you at 5 }" [("5", CStr "{Name}"); ("Name", CStr "}")]
  = "Hello, see you at 5 }".
Proof.
  apply (formatMessage_plain_template_unchanged "Hello, see you at 5 }"
           [("5", CStr "{Name}"); ("Name", CStr "}")]).
  reflexivity.
Defined.

(** X2.  Normalising is idempotent: the address of an address is the address
    itself, as the suffix ["@c.us"] holds no digit. *)
Theorem formatPhoneNumber_idempotent :
  forall phone : Phone,
    formatPhoneNumber (PStr (formatPhoneNumber phone)) = formatPhoneNumber phone.
Proof.
  intros phone. unfold formatPhoneNumber. cbn [phone_toString].
  rewrite !replace_non_digits, digits_of_append, digits_of_digits.
  change (digits_of "@c.us") with "". now rewrite append_nil_r.
Qed.


(** ** A single send *)

(** X4.  [sendMessage] never throws.  Without a client it returns a failed
    result with ['WhatsApp client not initialized'] and leaves everything as
    it is.  With a client it makes exactly one call of the transport, to the
    normalised address, and returns success if the call resolves and failed
    with the description of the rejection otherwise.  The result always
    carries the string form of the destination. *)
Theorem sendMessage_never_throws :
  forall (ClientState : Type)
         (transport : ClientState -> string -> string -> ClientState * Settled)
         (phone : Phone) (message : string) (w : World ClientState),
  exists result w',
    sendMessage transport phone message w = (Normal result, w')
    /\ mr_phone result = phone_toString phone
    /\ iteration w' = iteration w
    /\ match client w with
       | None =>
           w' = w
           /\ mr_status result = Failed
           /\ mr_error result = Some "WhatsApp client not initialized"
       | Some st =>
           let (st', o) := transport st (formatPhoneNumber phone) message in
           client w' = Some st'
           /\ log w' = log w ++ [(iteration w, EvSend (formatPhoneNumber phone) message o)]
           /\ mr_status result = status_of (verdict o)
           /\ mr_error result = verdict o
       end.
Proof.
  intros ClientState transport phone message [c l it].
  unfold sendMessage, try_catch, bind, this_client, client_sendMessage, ret, throw.
  cbn [client log iteration]. destruct c as [st|]; cbn [client log iteration].
  - destruct (transport st (formatPhoneNumber phone) message) as [st' [|e]];
      eexists; eexists; (split; [reflexivity|]); cbn; repeat split;
      destruct e; reflexivity.
  - eexists; eexists; (split; [reflexivity|]); cbn; repeat split.
Qed.

(** ** Reading a workbook *)

Section WorkbookFacts.

Lemma has_key_row_get (o : ExcelRow) (k : string) :
  has_key o k = match row_get o k with Some _ => true | None => false end.
Proof. apply row_get_keys. Qed.

Lemma row_get_replace_value (o : ExcelRow) (k k' : string) (v : Cell) :
  has_key o k = true ->
  row_get (replace_value o k v) k' = if String.eqb k k' then Some v else row_get o k'.
Proof.
  unfold has_key, keys. induction o as [|[k0 v0] o IH]; [discriminate|].
  cbn [map fst existsb replace_value row_get]. rewrite (String.eqb_sym k k0).
  destruct (String.eqb_spec k0 k) as [->|Hne]; cbn [orb row_get].
  - intros _. now destruct (String.eqb k k').
  - intros H. rewrite (IH H).
    destruct (String.eqb_spec k0 k') as [->|_]; [|reflexivity].
    destruct (String.eqb_spec k k') as [->|_]; [now elim Hne | reflexivity].
Qed.

Lemma row_get_new_key (o : ExcelRow) (k k' : string) :
  has_key o k = false -> String.eqb k k' = true -> row_get o k' = None.
Proof.
  intros H E. apply String.eqb_eq in E. subst k'.
  rewrite has_key_row_get in H. now destruct (row_get o k).
Qed.

Lemma row_get_insert_index (n : N) (o : ExcelRow) (k k' : string) (v : Cell) :
  has_key o k = false ->
  row_get (insert_index n k v o) k' = if String.eqb k k' then Some v else row_get o k'.
Proof.
  unfold has_key, keys. induction o as [|[k0 v0] o IH]; intros H.
  - reflexivity.
  - cbn [map fst existsb] in H. apply orb_false_iff in H as [Hk0 H].
    cbn [insert_index].
    assert (Hhead : row_get ((k, v) :: (k0, v0) :: o) k'
                    = if String.eqb k k' then Some v else row_get ((k0, v0) :: o) k')
      by reflexivity.
    destruct (array_index k0) as [n'|]; [|exact Hhead].
    destruct (n' <? n)%N; [|exact Hhead].
    cbn [row_get]. rewrite (IH H).
    destruct (String.eqb_spec k0 k') as [->|_]; [|reflexivity].
    now rewrite Hk0.
Qed.

Lemma row_get_append (o : ExcelRow) (k k' : string) (v : Cell) :
  has_key o k = false ->
  row_get (o ++ [(k, v)]) k' = if String.eqb k k' then Some v else row_get o k'.
Proof.
  unfold has_key, keys. induction o as [|[k0 v0] o IH]; intros H.
  - cbn. now destruct (String.eqb k k').
  - cbn [map fst existsb] in H. apply orb_false_iff in H as [Hk0 H].
    cbn [app row_get]. rewrite (IH H).
    destruct (String.eqb_spec k0 k') as [->|_]; [|reflexivity].
    now rewrite Hk0.
Qed.

(** Reading after an assignment: the assigned key answers with the new value,
    every other key as before. *)
Lemma row_get_obj_set (o : ExcelRow) (k k' : string) (v : Cell) :
  row_get (obj_set o k v) k' = if String.eqb k k' then Some v else row_get o k'.
Proof.
  unfold obj_set. destruct (has_key o k) eqn:H.
  - now apply row_get_replace_value.
  - destruct (array_index k); [now apply row_get_insert_index | now apply row_get_append].
Qed.

Lemma format_fold_get (row : ExcelRow) (ks : list string) (acc : ExcelRow) (k : string) :
  row_get
    (fold_left (fun formattedRow key =>
                  obj_set formattedRow key (formatted_cell (row_get row key))) ks acc) k
  = if existsb (String.eqb k) ks then Some (formatted_cell (row_get row k))
    else row_get acc k.
Proof.
  revert acc; induction ks as [|key ks IH]; intros acc; [reflexivity|].
  cbn [fold_left existsb]. rewrite IH, row_get_obj_set, (String.eqb_sym k key).
  destruct (existsb (String.eqb k) ks); [now rewrite orb_true_r|].
  rewrite orb_false_r. destruct (String.eqb_spec key k) as [->|_]; reflexivity.
Qed.

(** A formatted row answers for a column of the sheet with the formatted
    cell, and for [__rowIndex] with the index unless the sheet has such a
    column. *)
Lemma format_row_get (row : ExcelRow) (index : Z) (k : string) :
  row_get (format_row row index) k
  = if has_key row k then Some (formatted_cell (row_get row k))
    else if String.eqb "__rowIndex" k then Some (CNum index) else None.
Proof. unfold format_row. rewrite format_fold_get. reflexivity. Qed.

Lemma map_indexed_length {A B : Type} (f : A -> Z -> B) (i : Z) (l : list A) :
  List.length (map_indexed f i l) = List.length l.
Proof.
  revert i; induction l as [|x l IH]; intros i; [reflexivity|].
  cbn [map_indexed List.length]. now rewrite IH.
Qed.

Lemma map_indexed_nth {A B : Type} (f : A -> Z -> B) (i : Z) (l : list A) (k : nat) (x : A) :
  nth_error l k = Some x ->
  nth_error (map_indexed f i l) k = Some (f x (i + Z.of_nat k)).
Proof.
  revert i k; induction l as [|y l IH]; intros i k H; [destruct k; discriminate|].
  destruct k as [|k]; cbn [nth_error map_indexed] in *.
  - injection H as ->. f_equal. f_equal. lia.
  - rewrite (IH (i + 1) k H). f_equal. f_equal. lia.
Qed.

Lemma readExcelFile_listed (fs : FileSystem) (filePath : string)
    (sheetName : option string) (wb : Workbook) (sel : string) :
  fs filePath = Some (Readable wb) ->
  selected_sheet sheetName (SheetNames wb) = Some sel ->
  In sel (SheetNames wb) ->
  readExcelFile fs filePath sheetName
  = Normal (map_indexed format_row 0 (sheet_to_json wb sel)).
Proof.
  intros Hfs Hsel Hin. unfold readExcelFile. rewrite Hfs, Hsel.
  assert (E : existsb (String.eqb sel) (SheetNames wb) = true).
  { apply existsb_exists. exists sel. split; [exact Hin | apply String.eqb_refl]. }
  now rewrite E.
Qed.


End WorkbookFacts.

(** X5.  On a readable workbook whose selected sheet is listed,
    [readExcelFile] returns one row for each row of the sheet, in order.  The
    returned row has the columns of the sheet row and [__rowIndex], each
    column with its formatted cell; [__rowIndex] is the position of the row,
    unless the sheet has a column of this name, whose cell then stays. *)
Theorem readExcelFile_rows :
  forall (fs : FileSystem) (filePath : string) (sheetName : option string)
         (wb : Workbook) (sel : string),
    fs filePath = Some (Readable wb) ->
    selected_sheet sheetName (SheetNames wb) = Some sel ->
    In sel (SheetNames wb) ->
    exists rows,
      readExcelFile fs filePath sheetName = Normal rows
      /\ List.length rows = List.length (sheet_to_json wb sel)
      /\ forall (k : nat) (row : ExcelRow),
           nth_error (sheet_to_json wb sel) k = Some row ->
           exists row',
             nth_error rows k = Some row'
             /\ (forall key, has_key row' key
                             = has_key row key || String.eqb "__rowIndex" key)
             /\ (forall key, has_key row key = true ->
                             row_get row' key = Some (formatted_cell (row_get row key)))
             /\ (has_key row "__rowIndex" = false ->
                 row_get row' "__rowIndex" = Some (CNum (Z.of_nat k))).
Proof.
  intros fs filePath sheetName wb sel Hfs Hsel Hin.
  exists (map_indexed format_row 0 (sheet_to_json wb sel)).
  split; [now apply (readExcelFile_listed fs filePath sheetName wb sel)|].
  split; [apply map_indexed_length|].
  intros k row Hk. exists (format_row row (Z.of_nat k)).
  split; [apply (map_indexed_nth format_row 0 _ k row Hk)|].
  split; [|split].
  - intros key. rewrite (has_key_row_get (format_row row (Z.of_nat k))), format_row_get.
    destruct (has_key row key); [reflexivity|].
    now destruct (String.eqb "__rowIndex" key).
  - intros key H. now rewrite format_row_get, H.
  - intros H. now rewrite format_row_get, H.
Qed.

Lemma readExcelFile_rows_witness :
  exists rows,
    readExcelFile sample_files "contacts.xlsx" None = Normal rows
    /\ List.length rows = 2%nat
    /\ forall (k : nat) (row : ExcelRow),
         nth_error (sheet_to_json
                      {| SheetNames := ["Clients"; "Old"];
                         sheet_to_json := fun name =>
                           if String.eqb name "Clients"
                           then [[("Name", CStr "Ann"); ("Phone", CNum 919876543210)];
                                 [("Name", CStr "Bob"); ("Phone", CStr "")]]
                           else [] |} "Clients") k = Some row ->
         exists row',
           nth_error rows k = Some row'
           /\ (forall key, has_key row' key
                           = has_key row key || String.eqb "__rowIndex" key)
           /\ (forall key, has_key row key = true ->
                           row_get row' key = Some (formatted_cell (row_get row key)))
           /\ (has_key row "__rowIndex" = false ->
               row_get row' "__rowIndex" = Some (CNum (Z.of_nat k))).
Proof.
  apply (readExcelFile_rows sample_files "contacts.xlsx" None
           {| SheetNames := ["Clients"; "Old"];
              sheet_to_json := fun name =>
                if String.eqb name "Clients"
                then [[("Name", CStr "Ann"); ("Phone", CNum 919876543210)];
                      [("Name", CStr "Bob"); ("Phone", CStr "")]]
                else [] |} "Clients").
  - reflexivity.
  - reflexivity.
  - left; reflexivity.
Defined.

Example readExcelFile_sample :
  readExcelFile sample_files "contacts.xlsx" (Some "Clients")
  = Normal [[("__rowIndex", CNum 0); ("Name", CStr "Ann"); ("Phone", CStr "919876543210")];
            [("__rowIndex", CNum 1); ("Name", CStr "Bob"); ("Phone", CStr "")]].
Proof. reflexivity. Qed.



(** X7.  [getExcelSheets] and [readExcelFile] agree on a file: every sheet
    name that [getExcelSheets] lists can be read; a name that is not listed
    (and is not empty) is refused with the message that the sheet was not
    found; and without a name the first sheet is read, if there is a sheet. *)
Theorem listed_sheets_can_be_read :
  forall (fs : FileSystem) (filePath : string) (names : list string),
    getExcelSheets fs filePath = Normal names ->
    (forall name, In name names ->
       exists rows, readExcelFile fs filePath (Some name) = Normal rows)
    /\ (forall name, ~ In name names -> name <> "" ->
          readExcelFile fs filePath (Some name)
          = Throw (ErrorObject ("Sheet '" +++ name +++ "' not found in workbook")))
    /\ (forall first rest, names = first :: rest ->
          readExcelFile fs filePath None = readExcelFile fs filePath (Some first)
          /\ readExcelFile fs filePath (Some "") = readExcelFile fs filePath (Some first))
    /\ (names = [] ->
          readExcelFile fs filePath None
          = Throw (ErrorObject "Sheet 'undefined' not found in workbook")).
Proof.
  intros fs filePath names Hsheets. unfold getExcelSheets in Hsheets.
  destruct (fs filePath) as [[e|wb]|] eqn:Hfs; try discriminate.
  injection Hsheets as <-.
  assert (Hlisted : forall sheetName sel,
             selected_sheet sheetName (SheetNames wb) = Some sel ->
             In sel (SheetNames wb) ->
             exists rows, readExcelFile fs filePath sheetName = Normal rows).
  { intros sheetName sel Hsel Hin. eexists.
    apply (readExcelFile_listed fs filePath sheetName wb sel); assumption. }
  split; [|split; [|split]].
  - intros name Hin. destruct name as [|c name].
    + destruct (SheetNames wb) as [|first rest] eqn:E; [destruct Hin|].
      apply (Hlisted (Some "") first); [reflexivity | now left].
    + apply (Hlisted (Some (String c name)) (String c name)); [reflexivity | exact Hin].
  - intros name Hnot Hne. unfold readExcelFile. rewrite Hfs.
    destruct name as [|c name]; [now elim Hne|]. cbn [selected_sheet].
    destruct (existsb (String.eqb (String c name)) (SheetNames wb)) eqn:E; [|reflexivity].
    apply existsb_exists in E as (x & Hx & Heq). apply String.eqb_eq in Heq. subst x.
    now elim Hnot.
  - intros first rest E. unfold readExcelFile. rewrite Hfs, E.
    destruct first; split; reflexivity.
  - intros E. unfold readExcelFile. now rewrite Hfs, E.
Qed.

Lemma listed_sheets_can_be_read_witness :
  exists rows, readExcelFile sample_files "contacts.xlsx" (Some "Old") = Normal rows.
Proof.
  apply (proj1 (listed_sheets_can_be_read sample_files "contacts.xlsx" ["Clients"; "Old"]
                  eq_refl) "Old").
  right; left; reflexivity.
Defined.



(** ** Creating a group *)

Section GroupFacts.

Variable ClientState : Type.
Variable create_group : ClientState -> string -> list string -> ClientState * GroupSettled.

Lemma participants_fold (phoneColumn : string) (data : list ExcelRow) (acc : list string) :
  fold_left
    (fun participants row =>
       let phone := row_get row phoneColumn in
       if truthy phone && negb (instanceof_Date phone)
       then participants ++ [formatPhoneNumber (phone_value phone)]
       else participants)
    data acc
  = acc ++ valid_addresses data phoneColumn.
Proof.
  unfold valid_addresses. revert acc; induction data as [|row data IH]; intros acc.
  - cbn. now rewrite app_nil_r.
  - cbn [fold_left flat_map]. rewrite IH. unfold ineligible. cbv zeta.
    destruct (truthy (row_get row phoneColumn));
      destruct (instanceof_Date (row_get row phoneColumn)); cbn [negb andb orb app];
      try reflexivity.
    now rewrite <- app_assoc.
Qed.

(** The loop collects the addresses of the rows that pass the guard of the
    campaign, in row order. *)
Lemma participants_of_valid (data : list ExcelRow) (phoneColumn : string) :
  participants_of data phoneColumn = valid_addresses data phoneColumn.
Proof. unfold participants_of. now rewrite participants_fold. Qed.


End GroupFacts.



(** X10.  [createGroupFromExcel] never throws, and its result is of one of
    two shapes.  A success carries no error, and the group id and name that
    [client.createGroup] resolved with on the valid addresses of the file; it
    occurs only with a client and a readable sheet.  A failure carries an
    error message and neither id nor name. *)
Theorem createGroup_result_shape :
  forall (ClientState : Type)
         (create_group : ClientState -> string -> list string -> ClientState * GroupSettled)
         (fs : FileSystem) (c : option ClientState) (filePath : string)
         (sheetName : option string) (phoneColumn groupName : string),
  exists result c' calls,
    createGroupFromExcel create_group fs c filePath sheetName phoneColumn groupName
    = (result, c', calls)
    /\ if cg_success result
       then cg_error result = None
            /\ exists st data,
                 c = Some st
                 /\ readExcelFile fs filePath sheetName = Normal data
                 /\ snd (create_group st groupName (valid_addresses data phoneColumn))
                    = GroupResolved (GroupObject (cg_groupId result) (cg_groupName result))
       else cg_groupId result = None
            /\ cg_groupName result = None
            /\ exists message, cg_error result = Some message.
Proof.
  intros ClientState create_group fs c filePath sheetName phoneColumn groupName.
  unfold createGroupFromExcel, create_group_try.
  destruct c as [st|]; [|do 3 eexists; split; [reflexivity|]; cbn; eauto].
  destruct (readExcelFile fs filePath sheetName) as [data|e] eqn:Hread;
    [|do 3 eexists; split; [reflexivity|]; cbn; eauto].
  rewrite participants_of_valid.
  destruct (List.length (valid_addresses data phoneColumn) =? 0)%nat;
    [do 3 eexists; split; [reflexivity|]; cbn; eauto|].
  destruct (create_group st groupName (valid_addresses data phoneColumn))
    as [st' [[serialized name|typeError]|e]] eqn:Hcg;
    do 3 eexists; (split; [reflexivity|]); cbn; eauto.
  split; [reflexivity|]. exists st, data. now rewrite Hcg.
Qed.

Section DestinationsFacts.

Variable ClientState : Type.
Variable transport : ClientState -> string -> string -> ClientState * Settled.

Lemma addresses_of_progress (cb : bool) (p : ProgressData) :
  flat_map send_address (progress_events cb p) = [].
Proof. now destruct cb. Qed.

Lemma addresses_of_pause (n delay i : Z) : flat_map send_address (pause n delay i) = [].
Proof. unfold pause. now destruct (i <? n - 1). Qed.

(** On a session the iterations hand messages to the addresses of the rows
    that pass the guard, in row order. *)
Lemma run_rows_addresses (n : Z) (phoneColumn template : string) (delay : Z) (cb : bool)
    (rest : list ExcelRow) (i : Z) (c : option ClientState) :
  present c = true ->
  flat_map send_address
    (flat_map fst (run_rows transport n phoneColumn template delay cb rest i c))
  = valid_addresses rest phoneColumn.
Proof.
  unfold valid_addresses. revert i c; induction rest as [|row rest IH]; intros i c Hc;
    [reflexivity|].
  cbn [run_rows]. unfold row_effect, settle.
  destruct (ineligible phoneColumn row) eqn:Hrow.
  - cbn [flat_map fst]. rewrite Hrow, flat_map_app, addresses_of_progress. cbn [app].
    now apply IH.
  - destruct c as [st|]; [|discriminate].
    destruct (transport st _ _) as [st' o].
    cbn [flat_map fst]. rewrite Hrow, !flat_map_app, !addresses_of_progress.
    rewrite addresses_of_pause.
    cbn [flat_map send_address app]. f_equal. now apply IH.
Qed.

End DestinationsFacts.

(** X11.  A group made from a sheet and a campaign over the same rows reach
    the same addresses: on a session, the addresses that [sendMessages]
    hands to the transport, in the order of the sends, are the participants
    that [createGroupFromExcel] collects from these rows. *)
Theorem campaign_reaches_the_group_participants :
  forall (ClientState : Type)
         (transport : ClientState -> string -> string -> ClientState * Settled)
         (data : list ExcelRow) (phoneColumn template : string) (delay : Z)
         (progressCallback : bool) (st : ClientState),
  exists r w',
    sendMessages transport data phoneColumn template delay progressCallback
      (start (Some st)) = (Normal r, w')
    /\ flat_map send_address (map snd (log w')) = participants_of data phoneColumn.
Proof.
  intros ClientState transport data phoneColumn template delay cb st.
  destruct (sendMessages_effect ClientState transport data phoneColumn template delay cb
              (Some st)) as (r & w' & Hrun & _ & _ & _ & _ & Hlog).
  exists r, w'. split; [exact Hrun|].
  rewrite Hlog, stamped_events, participants_of_valid.
  now apply run_rows_addresses.
Qed.

(** ** Ending the session, and the handlers of the main process *)

(** X12.  [destroy] completes normally exactly when it leaves the handler
    without a client, and a second [destroy] then changes nothing and calls
    nothing.  It fails only with the rejection of [client.destroy()], and
    then the client and the ready flag stay in place. *)
Theorem destroy_outcomes :
  forall (ClientState : Type) (client_destroy : ClientState -> ClientState * Settled)
         (h : Handler ClientState),
    match destroy client_destroy h with
    | (Normal _, h') =>
        h_client h' = None
        /\ (h_client h <> None -> isReady h' = false)
        /\ destroy client_destroy h' = (Normal tt, h')
    | (Throw e, h') =>
        exists st,
          h_client h = Some st
          /\ snd (client_destroy st) = Rejected e
          /\ h_client h' = Some (fst (client_destroy st))
          /\ isReady h' = isReady h
    end.
Proof.
  intros ClientState client_destroy h. unfold destroy.
  destruct (h_client h) as [st|] eqn:Hc.
  - destruct (client_destroy st) as [st' [|e]] eqn:Hd.
    + cbn. auto.
    + exists st. cbn. rewrite Hd. auto.
  - rewrite Hc. repeat split; congruence.
Qed.

(** X13.  The reply of ['disconnect-whatsapp'] says success exactly when no
    handler is left afterwards, and then it carries no error.  A failure is
    the rejection of [client.destroy()]: the reply carries its message, or
    ['Unknown error'] when the reason is no [Error], and the handler stays,
    with its client. *)
Theorem disconnect_reply :
  forall (ClientState : Type) (client_destroy : ClientState -> ClientState * Settled)
         (whatsappHandler : option (Handler ClientState)),
    match ipc_disconnect client_destroy whatsappHandler with
    | (true, error, after) => error = None /\ after = None
    | (false, error, after) =>
        exists handler st e,
          whatsappHandler = Some handler
          /\ h_client handler = Some st
          /\ snd (client_destroy st) = Rejected e
          /\ error = Some (reply_message e)
          /\ after = Some {| h_client := Some (fst (client_destroy st));
                             isReady := isReady handler |}
    end.
Proof.
  intros ClientState client_destroy [handler|]; [|now cbn].
  unfold ipc_disconnect, destroy.
  destruct (h_client handler) as [st|] eqn:Hc; [|now cbn].
  destruct (client_destroy st) as [st' [|e]] eqn:Hd; [now cbn|].
  exists handler, st, e. cbn. rewrite Hd. auto.
Qed.

(** X14.  After a ['disconnect-whatsapp'] that replied success, a
    ['send-messages'] sends nothing and replies with the error
    ['WhatsApp handler not initialized'], whatever the rows. *)
Theorem send_messages_after_disconnect :
  forall (ClientState : Type) (client_destroy : ClientState -> ClientState * Settled)
         (transport : ClientState -> string -> string -> ClientState * Settled)
         (whatsappHandler after : option (Handler ClientState)) (error : option string)
         (options : SendMessagesOptions),
    ipc_disconnect client_destroy whatsappHandler = (true, error, after) ->
    ipc_send_messages transport after options
    = ({| reply_success := false; reply_results := None;
          reply_error := Some "WhatsApp handler not initialized" |}, []).
Proof.
  intros ClientState client_destroy transport wh after error options H.
  assert (Hafter : after = None); [|now rewrite Hafter].
  destruct wh as [handler|]; cbn [ipc_disconnect] in H; [|congruence].
  destruct (destroy client_destroy handler) as [[u|e] handler']; congruence.
Qed.

Lemma send_messages_after_disconnect_witness :
  ipc_disconnect destroy_resolves (Some {| h_client := Some tt; isReady := true |})
  = (true, None, None)
  /\ ipc_send_messages always_resolves None
       {| opt_data := [[("Phone", CStr "5551234")]]; opt_phoneColumn := "Phone";
          opt_template := "Hi"; opt_delay := 0 |}
     = ({| reply_success := false; reply_results := None;
           reply_error := Some "WhatsApp handler not initialized" |}, []).
Proof.
  split; [reflexivity|].
  apply (send_messages_after_disconnect unit destroy_resolves always_resolves
           (Some {| h_client := Some tt; isReady := true |}) None None).
  reflexivity.
Defined.

(** X15.  The reply of ['send-messages'] says success whenever there is a
    handler: it then carries the results of a campaign over all the rows of
    the request, and no error.  This holds also when the handler has no
    client: every row is then counted as failed and nothing is sent, and the
    reply still says success. *)
Theorem send_messages_reply_with_handler :
  forall (ClientState : Type)
         (transport : ClientState -> string -> string -> ClientState * Settled)
         (handler : Handler ClientState) (options : SendMessagesOptions),
  exists r history,
    ipc_send_messages transport (Some handler) options
    = ({| reply_success := true; reply_results := Some r; reply_error := None |}, history)
    /\ total r = Z.of_nat (List.length (opt_data options))
    /\ List.length (details r) = List.length (opt_data options)
    /\ success r + failed r = total r
    /\ (h_client handler = None ->
        success r = 0 /\ existsb is_send (map snd history) = false).
Proof.
  intros ClientState transport handler [data phoneColumn template delay].
  cbn [opt_data opt_phoneColumn opt_template opt_delay ipc_send_messages].
  destruct (sendMessages_effect ClientState transport data phoneColumn template delay true
              (h_client handler)) as (r & w' & Hrun & Ht & Hd & Hs & Hsf & Hlog).
  rewrite Hrun. exists r, (log w'). split; [reflexivity|]. split; [exact Ht|].
  split; [now rewrite Hd, length_map, run_rows_length|]. split; [lia|].
  intros Hnone. rewrite Hnone in *.
  pose proof (run_rows_no_session ClientState transport (Z.of_nat (List.length data))
                phoneColumn template delay true data 0) as Hno.
  split.
  - rewrite Hs. clear - Hno. induction Hno as [|b bs [_ Hb] _ IH]; [reflexivity|].
    cbn [map filter]. now rewrite Hb.
  - rewrite Hlog, stamped_events. clear - Hno.
    induction Hno as [|b bs [Hb _] _ IH]; [reflexivity|].
    cbn [flat_map]. now rewrite existsb_app, Hb, IH.
Qed.

(** ** The window *)

Section WindowFacts.

Lemma firstn_app_firstn {A : Type} (k m : nat) (a l : list A) :
  (k <= List.length a + m)%nat -> firstn k (a ++ firstn m l) = firstn k (a ++ l).
Proof.
  intros Hk. rewrite !firstn_app, firstn_firstn. do 2 f_equal. lia.
Qed.

Lemma after_send_progress_log (events : list ProgressData) (state : (Z * Z) * list LogEntry) :
  events <> [] ->
  snd (after_send_progress events state)
  = firstn 10 (rev (map log_entry events) ++ snd state).
Proof.
  unfold after_send_progress. revert state.
  induction events as [|p events IH]; intros state Hne; [congruence|].
  cbn [fold_left map rev]. destruct events as [|p' events].
  - cbn [fold_left on_send_progress snd map rev app]. reflexivity.
  - rewrite IH by discriminate. cbn [on_send_progress snd].
    rewrite <- !app_assoc. cbn [app].
    change (log_entry p :: firstn 9 (snd state))
      with ([log_entry p] ++ firstn 9 (snd state)).
    change (log_entry p :: snd state) with ([log_entry p] ++ snd state).
    rewrite !app_assoc. apply firstn_app_firstn.
    rewrite length_app. cbn [List.length]. lia.
Qed.

Lemma after_send_progress_last (events : list ProgressData) (p : ProgressData)
    (state : (Z * Z) * list LogEntry) :
  after_send_progress (events ++ [p]) state
  = on_send_progress p (after_send_progress events state).
Proof. unfold after_send_progress. now rewrite fold_left_app. Qed.

Variable ClientState : Type.
Variable transport : ClientState -> string -> string -> ClientState * Settled.

(** With a callback the notifications of a campaign end with one that
    reports the last row, and that is no ['sending']. *)
Lemma run_rows_last_notification (n : Z) (phoneColumn template : string) (delay : Z)
    (row : ExcelRow) (rest : list ExcelRow) (i : Z) (c : option ClientState) :
  exists ps p,
    notifications (stamped i (run_rows transport n phoneColumn template delay true
                                (row :: rest) i c))
    = ps ++ [p]
    /\ current p = i + Z.of_nat (List.length (row :: rest))
    /\ pd_total p = n
    /\ pd_status p <> Sending.
Proof.
  revert row i c; induction rest as [|row' rest IH]; intros row i c.
  - cbn [run_rows]. unfold row_effect, settle.
    destruct (ineligible phoneColumn row).
    + exists [], (skipped_progress n i). cbn. repeat split; discriminate.
    + assert (Hs : forall err, pd_status (sent_progress n phoneColumn i row err) <> Sending).
      { intros [e|]; discriminate. }
      destruct c as [st|]; [destruct (transport st _ _) as [st' o]|];
        eexists [_], (sent_progress n phoneColumn i row _);
        (split; [|split; [cbn; lia | split; [reflexivity | apply Hs]]]);
        cbn [stamped progress_events]; rewrite app_nil_r, notifications_block;
        unfold pause; destruct (i <? n - 1); reflexivity.
  - change (run_rows transport n phoneColumn template delay true (row :: row' :: rest) i c)
      with (let '(c', evs, d) := row_effect transport n phoneColumn template delay true
                                   i row c in
            (evs, d) :: run_rows transport n phoneColumn template delay true
                          (row' :: rest) (i + 1) c').
    destruct (row_effect transport n phoneColumn template delay true i row c)
      as [[c' evs] d].
    destruct (IH row' (i + 1) c') as (ps & p & Hps & Hcur & Htot & Hst).
    cbn [stamped]. rewrite notifications_app, Hps.
    exists (notifications (map (pair i) evs) ++ ps), p.
    split; [now rewrite app_assoc|]. split; [|split; assumption].
    rewrite Hcur. cbn [List.length]. lia.
Qed.

End WindowFacts.

(** X16.  The log of the window keeps the ten newest notifications, newest
    first: after the notifications [events] arrived on an emptied log it holds
    the first ten of them in reverse order of arrival, and the progress shown
    is that of the last one. *)
Theorem window_keeps_the_ten_newest :
  forall (events : list ProgressData) (p : ProgressData) (progress : Z * Z),
    after_send_progress (events ++ [p]) (progress, [])
    = ((current p, pd_total p), firstn 10 (rev (map log_entry (events ++ [p])))).
Proof.
  intros events p progress.
  rewrite (surjective_pairing (after_send_progress (events ++ [p]) (progress, []))).
  f_equal.
  - now rewrite after_send_progress_last.
  - rewrite after_send_progress_log by (now destruct events).
    cbn [snd]. now rewrite app_nil_r.
Qed.

(** X17.  When a ['send-messages'] over at least one row has replied, the
    window that received its notifications shows all rows done: the progress
    is [n] of [n] for the [n] rows of the request, the log holds at most ten
    entries, and its newest entry is no ['sending']. *)
Theorem window_after_a_campaign :
  forall (ClientState : Type)
         (transport : ClientState -> string -> string -> ClientState * Settled)
         (handler : Handler ClientState) (options : SendMessagesOptions),
    opt_data options <> [] ->
    let n := Z.of_nat (List.length (opt_data options)) in
    let history := snd (ipc_send_messages transport (Some handler) options) in
    let window := after_send_progress (notifications history) ((0, n), []) in
    fst window = (n, n)
    /\ (List.length (snd window) <= 10)%nat
    /\ exists entry older, snd window = entry :: older /\ le_status entry <> Sending.
Proof.
  intros ClientState transport handler [data phoneColumn template delay] Hne.
  cbn [opt_data opt_phoneColumn opt_template opt_delay ipc_send_messages] in *.
  destruct (sendMessages_effect ClientState transport data phoneColumn template delay true
              (h_client handler)) as (r & w' & Hrun & _ & _ & _ & _ & Hlog).
  rewrite Hrun. cbn [snd]. rewrite Hlog.
  destruct data as [|row rest]; [congruence|].
  destruct (run_rows_last_notification ClientState transport
              (Z.of_nat (List.length (row :: rest))) phoneColumn template delay row rest 0
              (h_client handler)) as (ps & p & Hps & Hcur & Htot & Hst).
  rewrite Hps. cbv zeta. rewrite after_send_progress_last.
  cbn [on_send_progress fst snd]. split; [now rewrite Hcur, Htot|]. split.
  - cbn [List.length]. apply le_n_S, firstn_le_length.
  - eexists _, _. split; [reflexivity|]. exact Hst.
Qed.

Lemma window_after_a_campaign_witness :
  let options := {| opt_data := [[("Phone", CStr "5551234")]; [("Name", CStr "Bob")]];
                    opt_phoneColumn := "Phone"; opt_template := "Hi"; opt_delay := 1 |} in
  let history :=
    snd (ipc_send_messages always_resolves (Some {| h_client := Some tt; isReady := true |})
           options) in
  let window := after_send_progress (notifications history) ((0, 2), []) in
  fst window = (2, 2)
  /\ (List.length (snd window) <= 10)%nat
  /\ exists entry older, snd window = entry :: older /\ le_status entry <> Sending.
Proof.
  apply (window_after_a_campaign unit always_resolves
           {| h_client := Some tt; isReady := true |}
           {| opt_data := [[("Phone", CStr "5551234")]; [("Name", CStr "Bob")]];
              opt_phoneColumn := "Phone"; opt_template := "Hi"; opt_delay := 1 |}).
  discriminate.
Defined.

Section SelectionFacts.

Lemma includes_In (index : nat) (prev : list nat) :
  existsb (Nat.eqb index) prev = true <-> In index prev.
Proof.
  rewrite existsb_exists. split.
  - intros (x & Hx & Heq). apply Nat.eqb_eq in Heq. now subst.
  - intros H. exists index. split; [exact H | apply Nat.eqb_refl].
Qed.

Lemma filter_other_absent (index : nat) (prev : list nat) :
  ~ In index prev -> filter (fun i => negb (Nat.eqb i index)) prev = prev.
Proof.
  induction prev as [|j prev IH]; intros Hno; [reflexivity|].
  cbn [filter]. destruct (Nat.eqb_spec j index) as [->|Hne].
  - exfalso. apply Hno. now left.
  - cbn [negb]. f_equal. apply IH. intros Hin. apply Hno. now right.
Qed.

Lemma rows_by_index (rows : list ExcelRow) :
  map (fun idx => nth_error rows idx) (seq 0 (List.length rows)) = map Some rows.
Proof.
  induction rows as [|row rows IH]; [reflexivity|].
  cbn [List.length seq map nth_error]. f_equal.
  rewrite <- seq_shift, map_map. exact IH.
Qed.

Lemma selected_rows (excelData : list ExcelRow) (selected : list nat) :
  Forall (fun idx => (idx < List.length excelData)%nat) selected ->
  exists rows,
    map (fun idx => nth_error excelData idx) selected = map Some rows
    /\ List.length rows = List.length selected
    /\ forall k idx, nth_error selected k = Some idx ->
                     nth_error rows k = nth_error excelData idx.
Proof.
  induction 1 as [|idx selected Hidx _ (rows & Hrows & Hlen & Hnth)].
  - exists []. split; [reflexivity|]. split; [reflexivity|]. now intros [|k].
  - destruct (nth_error excelData idx) as [row|] eqn:Hrow;
      [|apply nth_error_None in Hrow; lia].
    exists (row :: rows). cbn [map List.length]. rewrite Hrow, Hrows, Hlen.
    split; [reflexivity|]. split; [reflexivity|].
    intros [|k] idx1 Hk; cbn [nth_error] in *; [congruence | now apply Hnth].
Qed.

End SelectionFacts.

(** X18.  [toggleRowSelection] flips the membership of the one index and of
    no other.  It keeps a selection free of repetitions so, and ticking a row
    that was not selected and ticking it again gives the selection back. *)
Theorem toggleRowSelection_flips_one_row :
  forall (index : nat) (prev : list nat),
    (forall j, In j (toggleRowSelection index prev)
               <-> (j = index /\ ~ In index prev) \/ (j <> index /\ In j prev))
    /\ (NoDup prev -> NoDup (toggleRowSelection index prev))
    /\ (~ In index prev ->
        toggleRowSelection index (toggleRowSelection index prev) = prev).
Proof.
  intros index prev. unfold toggleRowSelection at 1 2.
  destruct (existsb (Nat.eqb index) prev) eqn:Hinc.
  - apply includes_In in Hinc. split; [|split].
    + intros j. rewrite filter_In. destruct (Nat.eqb_spec j index) as [->|Hne]; cbn [negb].
      * split; [intros [_ H]; discriminate | intros [[_ H]|[H _]]; [now elim H | now elim H]].
      * split; [intros [H _]; now right | intros [[H _]|[_ H]]; [now elim Hne | now split]].
    + apply NoDup_filter.
    + intros Hno. now elim Hno.
  - assert (Hno : ~ In index prev).
    { intros Hin. apply includes_In in Hin. congruence. }
    split; [|split].
    + intros j. rewrite in_app_iff. cbn [In]. destruct (Nat.eq_dec j index) as [->|Hne].
      * split; [now left | now right; left].
      * split; [intros [H|[H|[]]]; [now right | now elim Hne]
               | intros [[H _]|[_ H]]; [now elim Hne | now left]].
    + intros Hnd. apply NoDup_app; [exact Hnd | repeat constructor; intros [] |].
      intros j Hj [<-|[]]. now elim Hno.
    + intros _. assert (Hadd : toggleRowSelection index prev = prev ++ [index]).
      { unfold toggleRowSelection. now rewrite Hinc. }
      rewrite Hadd. unfold toggleRowSelection.
      assert (Hin : existsb (Nat.eqb index) (prev ++ [index]) = true).
      { apply includes_In, in_app_iff. right. now left. }
      rewrite Hin, filter_app, filter_other_absent by exact Hno.
      cbn [filter]. rewrite Nat.eqb_refl. cbn [negb]. apply app_nil_r.
Qed.

Lemma toggleRowSelection_flips_one_row_witness :
  let prev := [0%nat; 1%nat] in
  (forall j, In j (toggleRowSelection 2 prev)
             <-> (j = 2%nat /\ ~ In 2%nat prev) \/ (j <> 2%nat /\ In j prev))
  /\ (NoDup prev -> NoDup (toggleRowSelection 2 prev))
  /\ (~ In 2%nat prev -> toggleRowSelection 2 (toggleRowSelection 2 prev) = prev).
Proof. exact (toggleRowSelection_flips_one_row 2 [0%nat; 1%nat]). Defined.

(** X19.  Ticking "select all" on a selection that does not have as many
    entries as there are rows selects every row once, in row order, and what
    is then sent is what is sent with no row selected at all: every row, in
    row order.  Ticking it again clears the selection. *)
Theorem select_all_sends_every_row :
  forall (excelData : list ExcelRow) (selectedRows : list nat),
    List.length selectedRows <> List.length excelData ->
    let all := toggleSelectAll (Some excelData) selectedRows in
    all = seq 0 (List.length excelData)
    /\ dataToSend excelData all = map Some excelData
    /\ dataToSend excelData all = dataToSend excelData []
    /\ toggleSelectAll (Some excelData) all = [].
Proof.
  intros excelData selectedRows Hlen. cbv zeta.
  assert (Hall : toggleSelectAll (Some excelData) selectedRows
                 = seq 0 (List.length excelData)).
  { unfold toggleSelectAll.
    destruct (Nat.eqb_spec (List.length selectedRows) (List.length excelData));
      [contradiction | reflexivity]. }
  rewrite Hall.
  assert (Hsend : dataToSend excelData (seq 0 (List.length excelData)) = map Some excelData).
  { unfold dataToSend. destruct (0 <? _)%nat; [apply rows_by_index | reflexivity]. }
  split; [reflexivity|]. split; [exact Hsend|]. split; [now rewrite Hsend|].
  unfold toggleSelectAll. now rewrite length_seq, Nat.eqb_refl.
Qed.

Lemma select_all_sends_every_row_witness :
  let excelData := [[("Phone", CStr "111")]; [("Phone", CStr "222")]] in
  let all := toggleSelectAll (Some excelData) [1%nat] in
  all = seq 0 (List.length excelData)
  /\ dataToSend excelData all = map Some excelData
  /\ dataToSend excelData all = dataToSend excelData []
  /\ toggleSelectAll (Some excelData) all = [].
Proof.
  apply (select_all_sends_every_row
           [[("Phone", CStr "111")]; [("Phone", CStr "222")]] [1%nat]).
  cbn. lia.
Defined.

(** X20.  With a selection of indices below the number of rows, what is sent
    holds no [undefined]: it is the selected rows, in the order in which they
    were ticked. *)
Theorem dataToSend_follows_the_selection :
  forall (excelData : list ExcelRow) (selectedRows : list nat),
    Forall (fun idx => (idx < List.length excelData)%nat) selectedRows ->
    exists rows,
      dataToSend excelData selectedRows = map Some rows
      /\ (selectedRows <> [] ->
          List.length rows = List.length selectedRows
          /\ forall k idx, nth_error selectedRows k = Some idx ->
                           nth_error rows k = nth_error excelData idx).
Proof.
  intros excelData selectedRows Hall. unfold dataToSend.
  destruct selectedRows as [|idx0 sel]; [exists excelData; split; [reflexivity | congruence]|].
  cbn [List.length Nat.ltb Nat.leb].
  destruct (selected_rows excelData (idx0 :: sel) Hall) as (rows & Hrows & Hlen & Hnth).
  exists rows. split; [exact Hrows|]. intros _. split; [exact Hlen | exact Hnth].
Qed.

Lemma dataToSend_follows_the_selection_witness :
  let excelData := [[("Phone", CStr "111")]; [("Phone", CStr "222")]] in
  Forall (fun idx => (idx < List.length excelData)%nat) [1%nat; 0%nat]
  /\ exists rows,
       dataToSend excelData [1%nat; 0%nat] = map Some rows
       /\ ([1%nat; 0%nat] <> [] ->
           List.length rows = List.length [1%nat; 0%nat]
           /\ forall k idx, nth_error [1%nat; 0%nat] k = Some idx ->
                            nth_error rows k = nth_error excelData idx).
Proof.
  assert (H : Forall (fun idx => (idx < 2)%nat) [1%nat; 0%nat]).
  { repeat constructor. }
  split; [exact H|].
  exact (dataToSend_follows_the_selection
           [[("Phone", CStr "111")]; [("Phone", CStr "222")]] [1%nat; 0%nat] H).
Defined.


(** ** The console tool *)

Section TemplateFacts.

Lemma template_loop_step (line : string) (input : list string) (template : string) :
  line <> "" ->
  template_loop (line :: input) template 0
  = template_loop input
      ((if String.eqb template "" then template else template +++ newline) +++ line) 0.
Proof.
  intros Hline. cbn [template_loop Z.ltb Z.compare].
  destruct (String.eqb_spec line ""); [contradiction | reflexivity].
Qed.

Lemma append_nonempty (s t : string) : t <> "" -> s +++ t <> "".
Proof. destruct s; [now cbn | discriminate]. Qed.

Lemma template_loop_done (input : list string) (template : string) :
  template_loop input template 1 = Some (template, input).
Proof. now destruct input. Qed.

(** Reading goes on over lines that are not empty and ends at the first
    empty one. *)
Lemma template_loop_lines (lines post : list string) (template : string) :
  Forall (fun line => line <> "") lines ->
  template_loop (lines ++ "" :: post) template 0
  = Some (fold_left
            (fun t line => (if String.eqb t "" then t else t +++ newline) +++ line)
            lines template,
          post).
Proof.
  intros Hlines. revert template.
  induction Hlines as [|line lines Hline _ IH]; intros template.
  - cbn [app fold_left template_loop Z.ltb Z.compare String.eqb Z.add].
    apply template_loop_done.
  - cbn [app fold_left]. rewrite template_loop_step by exact Hline. apply IH.
Qed.

Lemma fold_lines_concat (lines : list string) (template : string) :
  template <> "" ->
  Forall (fun line => line <> "") lines ->
  fold_left (fun t line => (if String.eqb t "" then t else t +++ newline) +++ line)
    lines template
  = String.concat newline (template :: lines).
Proof.
  intros Ht Hlines. revert template Ht.
  induction Hlines as [|l lines Hl _ IH]; intros template Ht; [reflexivity|].
  cbn [fold_left]. destruct (String.eqb_spec template ""); [contradiction|].
  rewrite IH by (apply append_nonempty; exact Hl).
  destruct lines; cbn [String.concat]; now rewrite !append_assoc.
Qed.

End TemplateFacts.

(** X22.  The template prompt ends at the first empty line, not at the
    second: of the lines typed, those before the first empty one, joined by
    line feeds, are the template, and the lines after it are left for the
    prompts that follow.  An empty first line gives the empty template. *)
Theorem template_ends_at_the_first_empty_line :
  forall (lines post : list string),
    Forall (fun line => line <> "") lines ->
    template_loop (lines ++ "" :: post) "" 0 = Some (String.concat newline lines, post).
Proof.
  intros lines post Hlines. rewrite template_loop_lines by exact Hlines. do 2 f_equal.
  destruct Hlines as [|line lines Hline Hlines]; [reflexivity|].
  cbn [fold_left String.eqb]. change ("" +++ line) with line.
  now apply fold_lines_concat.
Qed.

Lemma template_ends_at_the_first_empty_line_witness :
  Forall (fun line => line <> "") ["Hello {Name},"; "your order is ready."]
  /\ template_loop (["Hello {Name},"; "your order is ready."] ++ "" :: ["Bye"; ""]) "" 0
     = Some (String.concat newline ["Hello {Name},"; "your order is ready."], ["Bye"; ""]).
Proof.
  assert (H : Forall (fun line => line <> "") ["Hello {Name},"; "your order is ready."]).
  { repeat constructor; discriminate. }
  split; [exact H|].
  exact (template_ends_at_the_first_empty_line
           ["Hello {Name},"; "your order is ready."] ["Bye"; ""] H).
Defined.
